(** * btfm: the two Whisper adapters ([btfm] and [whisper-server])

    A shallow embedding of [src/btfm/src/transcribe.py] (module 1) and
    [src/whisper-server/src/transcribe.py] (module 2), together with the
    parts of the Python runtime the two files lean on: [str.lower],
    [str.strip], [re.sub] for one-character classes, [json.dumps] with its
    ASCII escaping, [try ... except Exception], and the process-wide
    [MODEL] slot.

    The Whisper library and the Unicode character database are external to
    the repository; they enter as type classes. *)

From Stdlib Require Import String Ascii NArith ZArith List Bool Lia.
Import ListNotations.

Local Open Scope N_scope.
Local Open Scope list_scope.

(* ================================================================== *)
(** ** Python strings *)

(** A Python [str] is a sequence of Unicode code points. *)
Definition pystr : Type := list N.

(** Reading a literal of this file as a Python string. *)
Fixpoint py (s : string) : pystr :=
  match s with
  | EmptyString => []
  | String a s' => N_of_ascii a :: py s'
  end.

(** JSON texts are written here with ['] standing for the double quote
    (code point 34), which cannot be written inside a literal. *)
Definition jq (s : string) : pystr :=
  map (fun c => if c =? 39 then 34 else c) (py s).

Definition in_range (lo hi c : N) : bool := (lo <=? c) && (c <=? hi).

(* ------------------------------------------------------------------ *)
(** *** The character database

    CPython answers [str.isalnum], [str.isspace], [str.isprintable] and
    the case mappings from its Unicode tables.  The ASCII rows are fixed below; the rows of
    the code points from 128 on are taken from an instance of
    [UnicodeData]. *)

Class UnicodeData : Type := {
  db_isalnum : N -> bool;
  db_isspace : N -> bool;
  db_tolower_full : N -> pystr;
  db_iscased : N -> bool;
  db_iscaseignorable : N -> bool;
  db_isprintable : N -> bool
}.

(** The table that leaves every code point above ASCII alone: no letters,
    no spaces, no case and nothing printable there. *)
Definition ascii_only_data : UnicodeData := {|
  db_isalnum := fun _ => false;
  db_isspace := fun _ => false;
  db_tolower_full := fun c => [c];
  db_iscased := fun _ => false;
  db_iscaseignorable := fun _ => false;
  db_isprintable := fun _ => false
|}.

Definition CAPITAL_SIGMA : N := 931.      (* U+03A3 *)
Definition FINAL_SIGMA : N := 962.        (* U+03C2 *)
Definition SMALL_SIGMA : N := 963.        (* U+03C3 *)

Section Unicode.
Context {U : UnicodeData}.

Definition ascii_isupper (c : N) : bool := in_range 65 90 c.
Definition ascii_islower (c : N) : bool := in_range 97 122 c.
Definition ascii_isdigit (c : N) : bool := in_range 48 57 c.

(** [Py_UNICODE_ISALNUM] *)
Definition Py_UNICODE_ISALNUM (c : N) : bool :=
  if c <? 128
  then ascii_isupper c || ascii_islower c || ascii_isdigit c
  else db_isalnum c.

(** [Py_UNICODE_ISSPACE]: in ASCII, 0x09-0x0D, 0x1C-0x1F and 0x20. *)
Definition Py_UNICODE_ISSPACE (c : N) : bool :=
  if c <? 128
  then in_range 9 13 c || in_range 28 31 c || (c =? 32)
  else db_isspace c.

(** [_PyUnicode_ToLowerFull]: one code point may lower to several. *)
Definition _PyUnicode_ToLowerFull (c : N) : pystr :=
  if c <? 128
  then [if ascii_isupper c then c + 32 else c]
  else db_tolower_full c.

Definition _PyUnicode_IsCased (c : N) : bool :=
  if c <? 128 then ascii_isupper c || ascii_islower c else db_iscased c.

(** In ASCII the case-ignorable characters are ['], [.], [:], [^] and
    the grave accent. *)
Definition _PyUnicode_IsCaseIgnorable (c : N) : bool :=
  if c <? 128
  then (c =? 39) || (c =? 46) || (c =? 58) || (c =? 94) || (c =? 96)
  else db_iscaseignorable c.

(** *** [str.lower]

    [do_lower] walks the string; every code point goes through
    [lower_ucs4], which sends U+03A3 to the final or the small sigma
    according to its neighbours ([handle_capital_sigma]) and any other
    code point to its full lower-case mapping. *)

Fixpoint skip_case_ignorable (s : pystr) : pystr :=
  match s with
  | [] => []
  | c :: s' => if _PyUnicode_IsCaseIgnorable c then skip_case_ignorable s' else s
  end.

(** [before] is the text left of the sigma, nearest character first. *)
Definition handle_capital_sigma (before after : pystr) : N :=
  let final_sigma :=
    match skip_case_ignorable before with
    | [] => false
    | c :: _ =>
        if _PyUnicode_IsCased c
        then match skip_case_ignorable after with
             | [] => true
             | c' :: _ => negb (_PyUnicode_IsCased c')
             end
        else false
    end in
  if final_sigma then FINAL_SIGMA else SMALL_SIGMA.

Definition lower_ucs4 (before : pystr) (c : N) (after : pystr) : pystr :=
  if c =? CAPITAL_SIGMA
  then [handle_capital_sigma before after]
  else _PyUnicode_ToLowerFull c.

Fixpoint do_lower (before s : pystr) : pystr :=
  match s with
  | [] => []
  | c :: s' => lower_ucs4 before c s' ++ do_lower (c :: before) s'
  end.

Definition str_lower (s : pystr) : pystr := do_lower [] s.

(** *** [str.strip]

    [do_strip] with [BOTHSTRIP] and no character set: [i] runs right
    over the leading white space, [j] runs left from the end down to
    [i], and the slice [s[i:j]] is returned. *)

Fixpoint strip_left_index (s : pystr) (i : nat) : nat :=
  match s with
  | [] => i
  | c :: s' => if Py_UNICODE_ISSPACE c then strip_left_index s' (S i) else i
  end.

(** [j] counts one past the index under test, as after the final [j++]. *)
Fixpoint strip_right_index (s : pystr) (i j : nat) : nat :=
  match j with
  | O => O
  | S j' =>
      if Nat.leb i j' && Py_UNICODE_ISSPACE (nth j' s 0)
      then strip_right_index s i j'
      else j
  end.

Definition PyUnicode_Substring (s : pystr) (i j : nat) : pystr :=
  firstn (j - i) (skipn i s).

Definition str_strip (s : pystr) : pystr :=
  let i := strip_left_index s 0 in
  let j := strip_right_index s i (length s) in
  PyUnicode_Substring s i j.

(** *** [repr] of a string

    [unicode_repr]: single quotes around the text, double quotes instead
    when the text holds a single quote and no double quote; the quote in
    use and the backslash are escaped, so are tab, newline and return,
    and what is not printable is written in hexadecimal. *)

(** [Py_UNICODE_ISPRINTABLE]: in ASCII, from the space to the tilde. *)
Definition Py_UNICODE_ISPRINTABLE (c : N) : bool :=
  if c <? 128 then in_range 32 126 c else db_isprintable c.

Definition hex_lower (d : N) : N := if d <? 10 then 48 + d else 87 + d.

(** The last [digits] hexadecimal digits of [n], most significant first. *)
Fixpoint hex_digits (digits : nat) (n : N) : pystr :=
  match digits with
  | O => []
  | S k => hex_digits k (n / 16) ++ [hex_lower (n mod 16)]
  end.

Definition repr_char (quote c : N) : pystr :=
  if (c =? quote) || (c =? 92) then [92; c]
  else if c =? 9 then [92; 116]
  else if c =? 10 then [92; 110]
  else if c =? 13 then [92; 114]
  else if (c <? 32) || (c =? 127) then 92 :: 120 :: hex_digits 2 c
  else if c <? 127 then [c]
  else if Py_UNICODE_ISPRINTABLE c then [c]
  else if c <=? 255 then 92 :: 120 :: hex_digits 2 c
  else if c <=? 65535 then 92 :: 117 :: hex_digits 4 c
  else 92 :: 85 :: hex_digits 8 c.

Definition unicode_repr (s : pystr) : pystr :=
  let quote :=
    if existsb (N.eqb 39) s && negb (existsb (N.eqb 34) s) then 34 else 39 in
  quote :: flat_map (repr_char quote) s ++ [quote].

End Unicode.

(* ================================================================== *)
(** ** Regular expressions over one character

    Both patterns met here ([ALPHANUMERIC_REGEX] of module 2 and
    [ESCAPE_ASCII] of the [json] encoder) match exactly one character, so
    a pattern is a character set or an alternation of such. *)

Module Re.

Inductive category : Type :=
| CATEGORY_UNI_WORD      (* \w *)
| CATEGORY_UNI_SPACE.    (* \s *)

Inductive set_item : Type :=
| LITERAL (c : N)
| RANGE (lo hi : N)
| CATEGORY (k : category).

Inductive pattern : Type :=
| IN (negate : bool) (items : list set_item)
| BRANCH (p q : pattern).

Section Matching.
Context {U : UnicodeData}.

Definition category_match (k : category) (c : N) : bool :=
  match k with
  | CATEGORY_UNI_WORD => Py_UNICODE_ISALNUM c || (c =? 95)
  | CATEGORY_UNI_SPACE => Py_UNICODE_ISSPACE c
  end.

Definition item_match (c : N) (i : set_item) : bool :=
  match i with
  | LITERAL l => c =? l
  | RANGE lo hi => in_range lo hi c
  | CATEGORY k => category_match k c
  end.

Fixpoint match_char (p : pattern) (c : N) : bool :=
  match p with
  | IN negate items => xorb negate (existsb (item_match c) items)
  | BRANCH p q => match_char p c || match_char q c
  end.

(** [pattern.sub(repl, s)]: scan from the left; where the pattern
    matches, the replacement (a function of the match) is emitted and
    the scan goes on behind the match; elsewhere the character is
    copied. *)
Fixpoint sub (p : pattern) (repl : N -> pystr) (s : pystr) : pystr :=
  match s with
  | [] => []
  | c :: s' =>
      if match_char p c
      then repl c ++ sub p repl s'
      else c :: sub p repl s'
  end.

End Matching.

End Re.

(* ================================================================== *)
(** ** Python values, exceptions and outcomes *)

(** The values that flow through the two modules: what the Whisper calls
    hand back and what [json.dumps] is given.  [PyOther] stands for any
    object that is neither subscriptable nor a string nor serialisable
    (whisper's [DecodingResult], a tensor, a number ...). *)
#[warnings="-register-all"]
Inductive PyObj : Type :=
| PyNone
| PyBool (b : bool)
| PyStr (s : pystr)
| PyList (xs : list PyObj)
| PyDict (items : list (pystr * PyObj))
| PyOther (type_name : pystr).

(** Exception classes.  The last three derive from [BaseException] only;
    every other one derives from [Exception]. *)
Inductive ExcClass : Type :=
| AttributeError
| KeyError
| IndexError
| TypeError
| ValueError
| RuntimeError
| OSError
| MemoryError
| LibraryError (name : pystr)
| KeyboardInterrupt
| SystemExit
| GeneratorExit.

Record PyExc : Type := mkExc { exc_type : ExcClass; exc_str : pystr }.

(** [isinstance(e, Exception)] *)
Definition isinstance_Exception (e : PyExc) : bool :=
  match exc_type e with
  | KeyboardInterrupt | SystemExit | GeneratorExit => false
  | _ => true
  end.

Inductive Outcome (A : Type) : Type :=
| Returns (a : A)
| Raises (e : PyExc).
Arguments Returns {A} a.
Arguments Raises {A} e.

(** *** Subscripts and methods, with the errors Python raises *)

Fixpoint pystr_eqb (a b : pystr) : bool :=
  match a, b with
  | [], [] => true
  | x :: a', y :: b' => (x =? y) && pystr_eqb a' b'
  | _, _ => false
  end.

Fixpoint dict_lookup (items : list (pystr * PyObj)) (k : pystr) : option PyObj :=
  match items with
  | [] => None
  | (k', v) :: rest => if pystr_eqb k' k then Some v else dict_lookup rest k
  end.

(** [d[k] = v] on a dict: an existing key keeps its place. *)
Fixpoint dict_store (items : list (pystr * PyObj)) (k : pystr) (v : PyObj)
  : list (pystr * PyObj) :=
  match items with
  | [] => [(k, v)]
  | (k', v') :: rest =>
      if pystr_eqb k' k then (k', v) :: rest else (k', v') :: dict_store rest k v
  end.

Fixpoint list_store (xs : list PyObj) (i : nat) (v : PyObj) : option (list PyObj) :=
  match xs, i with
  | [], _ => None
  | _ :: xs', O => Some (v :: xs')
  | x :: xs', S i' =>
      match list_store xs' i' v with
      | Some ys => Some (x :: ys)
      | None => None
      end
  end.

(** [type(o).__name__] *)
Definition type_name (o : PyObj) : pystr :=
  match o with
  | PyNone => py "NoneType"
  | PyBool _ => py "bool"
  | PyStr _ => py "str"
  | PyList _ => py "list"
  | PyDict _ => py "dict"
  | PyOther name => name
  end.

(** The message of the [TypeError] or [AttributeError] that names the
    type of the object: ['T' object <what>]. *)
Definition object_message (o : PyObj) (what : string) : pystr :=
  py "'" ++ type_name o ++ py "' object " ++ py what.

(** [str(i)] for a non-negative integer *)
Fixpoint decimal_digits (u : Decimal.uint) : pystr :=
  match u with
  | Decimal.Nil => []
  | Decimal.D0 u' => 48 :: decimal_digits u'
  | Decimal.D1 u' => 49 :: decimal_digits u'
  | Decimal.D2 u' => 50 :: decimal_digits u'
  | Decimal.D3 u' => 51 :: decimal_digits u'
  | Decimal.D4 u' => 52 :: decimal_digits u'
  | Decimal.D5 u' => 53 :: decimal_digits u'
  | Decimal.D6 u' => 54 :: decimal_digits u'
  | Decimal.D7 u' => 55 :: decimal_digits u'
  | Decimal.D8 u' => 56 :: decimal_digits u'
  | Decimal.D9 u' => 57 :: decimal_digits u'
  end.

Definition str_of_nat (i : nat) : pystr := decimal_digits (Nat.to_uint i).

(** [o[k]] with a string key.  The [exc_str] of an error is what
    [str(e)] gives in CPython 3.11; for a [KeyError] that is the [repr]
    of the key. *)
Definition getitem {U : UnicodeData} (o : PyObj) (k : pystr) : Outcome PyObj :=
  match o with
  | PyDict items =>
      match dict_lookup items k with
      | Some v => Returns v
      | None => Raises (mkExc KeyError (unicode_repr k))
      end
  | PyStr _ => Raises (mkExc TypeError (py "string indices must be integers, not 'str'"))
  | PyList _ => Raises (mkExc TypeError (py "list indices must be integers or slices, not str"))
  | _ => Raises (mkExc TypeError (object_message o "is not subscriptable"))
  end.

(** [o[i]] with a non-negative integer index.  The dicts of this model
    have string keys only, so an integer is never found in one. *)
Definition getindex (o : PyObj) (i : nat) : Outcome PyObj :=
  match o with
  | PyList xs =>
      match nth_error xs i with
      | Some v => Returns v
      | None => Raises (mkExc IndexError (py "list index out of range"))
      end
  | PyStr s =>
      match nth_error s i with
      | Some c => Returns (PyStr [c])
      | None => Raises (mkExc IndexError (py "string index out of range"))
      end
  | PyDict _ => Raises (mkExc KeyError (str_of_nat i))
  | _ => Raises (mkExc TypeError (object_message o "is not subscriptable"))
  end.

(** [o[k] = v] with a string key *)
Definition setitem (o : PyObj) (k : pystr) (v : PyObj) : Outcome PyObj :=
  match o with
  | PyDict items => Returns (PyDict (dict_store items k v))
  | PyList _ => Raises (mkExc TypeError (py "list indices must be integers or slices, not str"))
  | _ => Raises (mkExc TypeError (object_message o "does not support item assignment"))
  end.

(** [o[i] = v] with a non-negative integer index, on a list or on an
    object without item assignment; a dict, which would take the integer
    as a new key, is outside what this function is applied to. *)
Definition setindex (o : PyObj) (i : nat) (v : PyObj) : Outcome PyObj :=
  match o with
  | PyList xs =>
      match list_store xs i v with
      | Some ys => Returns (PyList ys)
      | None => Raises (mkExc IndexError (py "list assignment index out of range"))
      end
  | _ => Raises (mkExc TypeError (object_message o "does not support item assignment"))
  end.

(** [o.lower()]: only a string has the method among the values above. *)
Definition method_lower {U : UnicodeData} (o : PyObj) : Outcome pystr :=
  match o with
  | PyStr s => Returns (str_lower s)
  | _ => Raises (mkExc AttributeError (object_message o "has no attribute 'lower'"))
  end.

(* ================================================================== *)
(** ** The [json] module *)

Module Json.

(** [ESCAPE_ASCII]: a backslash, a double quote, or anything outside
    the printable range from the space to the tilde. *)
Definition ESCAPE_ASCII : Re.pattern :=
  Re.BRANCH (Re.IN false [Re.LITERAL 92; Re.LITERAL 34])
            (Re.IN true [Re.RANGE 32 126]).

Definition hexdigit (d : N) : N := if d <? 10 then 48 + d else 87 + d.

(** ['{0:04x}'.format(n)], for [n < 0x10000] *)
Definition format_04x (n : N) : pystr :=
  [hexdigit (n / 4096 mod 16); hexdigit (n / 256 mod 16);
   hexdigit (n / 16 mod 16); hexdigit (n mod 16)].

(** [ESCAPE_DCT]: the two-character escapes, and [\u00XX] for the other
    control characters. *)
Definition ESCAPE_DCT (c : N) : option pystr :=
  if c =? 92 then Some [92; 92]
  else if c =? 34 then Some [92; 34]
  else if c =? 8 then Some [92; 98]
  else if c =? 12 then Some [92; 102]
  else if c =? 10 then Some [92; 110]
  else if c =? 13 then Some [92; 114]
  else if c =? 9 then Some [92; 116]
  else if c <? 32 then Some (92 :: 117 :: format_04x c)
  else None.

(** The [replace] callback of [py_encode_basestring_ascii]. *)
Definition replace (c : N) : pystr :=
  match ESCAPE_DCT c with
  | Some r => r
  | None =>
      if c <? 65536
      then 92 :: 117 :: format_04x c
      else
        let n := c - 65536 in
        let s1 := N.lor 55296 (N.land (N.shiftr n 10) 1023) in
        let s2 := N.lor 56320 (N.land n 1023) in
        (92 :: 117 :: format_04x s1) ++ (92 :: 117 :: format_04x s2)
  end.

Section Encoder.
Context {U : UnicodeData}.

Definition py_encode_basestring_ascii (s : pystr) : pystr :=
  34 :: Re.sub ESCAPE_ASCII replace s ++ [34].

Fixpoint join (sep : pystr) (chunks : list pystr) : pystr :=
  match chunks with
  | [] => []
  | [c] => c
  | c :: rest => c ++ sep ++ join sep rest
  end.

(** [json.dumps(o)] with the defaults: [ensure_ascii=True], a comma and a
    space between items, a colon and a space behind a key, no
    indentation, keys in insertion order. *)
Fixpoint dumps (o : PyObj) : Outcome pystr :=
  match o with
  | PyNone => Returns (py "null")
  | PyBool b => Returns (if b then py "true" else py "false")
  | PyStr s => Returns (py_encode_basestring_ascii s)
  | PyList xs =>
      match
        (fix elements (xs : list PyObj) : Outcome (list pystr) :=
           match xs with
           | [] => Returns []
           | x :: xs' =>
               match dumps x with
               | Raises e => Raises e
               | Returns cx =>
                   match elements xs' with
                   | Raises e => Raises e
                   | Returns cs => Returns (cx :: cs)
                   end
               end
           end) xs
      with
      | Raises e => Raises e
      | Returns chunks => Returns (91 :: join (py ", ") chunks ++ [93])
      end
  | PyDict kvs =>
      match
        (fix members (kvs : list (pystr * PyObj)) : Outcome (list pystr) :=
           match kvs with
           | [] => Returns []
           | (k, v) :: kvs' =>
               match dumps v with
               | Raises e => Raises e
               | Returns cv =>
                   match members kvs' with
                   | Raises e => Raises e
                   | Returns cs =>
                       Returns ((py_encode_basestring_ascii k ++ py ": " ++ cv) :: cs)
                   end
               end
           end) kvs
      with
      | Raises e => Raises e
      | Returns chunks => Returns (123 :: join (py ", ") chunks ++ [125])
      end
  | PyOther t =>
      Raises (mkExc TypeError (py "Object of type " ++ t ++ py " is not JSON serializable"))
  end.

End Encoder.

(** *** Decoding

    [json.loads], restricted to objects, arrays, strings and the three
    literals: a number makes it fail, so it accepts no more than the
    real decoder does. *)

Definition is_ws (c : N) : bool :=
  (c =? 32) || (c =? 9) || (c =? 10) || (c =? 13).

Fixpoint skip_ws (s : pystr) : pystr :=
  match s with
  | [] => []
  | c :: s' => if is_ws c then skip_ws s' else s
  end.

Definition hex_value (c : N) : option N :=
  if in_range 48 57 c then Some (c - 48)
  else if in_range 97 102 c then Some (c - 87)
  else if in_range 65 70 c then Some (c - 55)
  else None.

(** [_decode_uXXXX] on the four characters behind [\u] *)
Definition decode_uXXXX (h1 h2 h3 h4 : N) : option N :=
  match hex_value h1, hex_value h2, hex_value h3, hex_value h4 with
  | Some a, Some b, Some c, Some d => Some (((a * 16 + b) * 16 + c) * 16 + d)
  | _, _, _, _ => None
  end.

(** [BACKSLASH]: the one-character escapes *)
Definition BACKSLASH (e : N) : option N :=
  if e =? 34 then Some 34
  else if e =? 92 then Some 92
  else if e =? 47 then Some 47
  else if e =? 98 then Some 8
  else if e =? 102 then Some 12
  else if e =? 110 then Some 10
  else if e =? 114 then Some 13
  else if e =? 116 then Some 9
  else None.

Definition is_high_surrogate (u : N) : bool := in_range 55296 56319 u.
Definition is_low_surrogate (u : N) : bool := in_range 56320 57343 u.

(** [py_scanstring] in strict mode, entered behind the opening quote;
    [acc] holds the characters decoded so far, last one first.  The
    result is the decoded string and the text behind the closing quote. *)
Fixpoint scanstring (s acc : pystr) : option (pystr * pystr) :=
  match s with
  | [] => None
  | c :: s1 =>
      if c =? 34 then Some (rev acc, s1)
      else if c =? 92 then
        match s1 with
        | [] => None
        | e :: s2 =>
            if e =? 117 then
              match s2 with
              | h1 :: h2 :: h3 :: h4 :: s3 =>
                  match decode_uXXXX h1 h2 h3 h4 with
                  | None => None
                  | Some uni =>
                      if is_high_surrogate uni then
                        match s3 with
                        | b :: s3' =>
                            if b =? 92 then
                              match s3' with
                              | u' :: s3'' =>
                                  if u' =? 117 then
                                    match s3'' with
                                    | l1 :: l2 :: l3 :: l4 :: s4 =>
                                        match decode_uXXXX l1 l2 l3 l4 with
                                        | None => None
                                        | Some uni2 =>
                                            if is_low_surrogate uni2
                                            then scanstring s4
                                                   (65536 + N.lor (N.shiftl (uni - 55296) 10)
                                                                  (uni2 - 56320) :: acc)
                                            else scanstring s3 (uni :: acc)
                                        end
                                    | _ => None
                                    end
                                  else scanstring s3 (uni :: acc)
                              | [] => None
                              end
                            else scanstring s3 (uni :: acc)
                        | [] => None
                        end
                      else scanstring s3 (uni :: acc)
                  end
              | _ => None
              end
            else
              match BACKSLASH e with
              | Some d => scanstring s2 (d :: acc)
              | None => None
              end
        end
      else if c <? 32 then None
      else scanstring s1 (c :: acc)
  end.

Definition starts_with (lit s : pystr) : option pystr :=
  if pystr_eqb (firstn (length lit) s) lit then Some (skipn (length lit) s) else None.

(** [scan_once], [JSONObject] and [JSONArray]; [fuel] bounds the number
    of nested calls. *)
Fixpoint scan_once (fuel : nat) (s : pystr) {struct fuel} : option (PyObj * pystr) :=
  match fuel with
  | O => None
  | S f =>
      match s with
      | [] => None
      | c :: s1 =>
          if c =? 34 then
            match scanstring s1 [] with
            | Some (t, rest) => Some (PyStr t, rest)
            | None => None
            end
          else if c =? 123 then
            match skip_ws s1 with
            | [] => None
            | d :: s2 =>
                if d =? 125 then Some (PyDict [], s2)
                else JSONObject f (d :: s2) []
            end
          else if c =? 91 then
            match skip_ws s1 with
            | [] => None
            | d :: s2 =>
                if d =? 93 then Some (PyList [], s2)
                else JSONArray f (d :: s2) []
            end
          else
            match starts_with (py "null") s, starts_with (py "true") s,
                  starts_with (py "false") s with
            | Some rest, _, _ => Some (PyNone, rest)
            | _, Some rest, _ => Some (PyBool true, rest)
            | _, _, Some rest => Some (PyBool false, rest)
            | _, _, _ => None
            end
      end
  end

(** Entered at the opening quote of a key. *)
with JSONObject (fuel : nat) (s : pystr) (acc : list (pystr * PyObj)) {struct fuel}
  : option (PyObj * pystr) :=
  match fuel with
  | O => None
  | S f =>
      match s with
      | [] => None
      | q :: s1 =>
          if q =? 34 then
            match scanstring s1 [] with
            | None => None
            | Some (k, s2) =>
                match skip_ws s2 with
                | [] => None
                | colon :: s3 =>
                    if colon =? 58 then
                      match scan_once f (skip_ws s3) with
                      | None => None
                      | Some (v, s4) =>
                          match skip_ws s4 with
                          | [] => None
                          | d :: s5 =>
                              if d =? 125 then Some (PyDict (rev ((k, v) :: acc)), s5)
                              else if d =? 44 then JSONObject f (skip_ws s5) ((k, v) :: acc)
                              else None
                          end
                      end
                    else None
                end
            end
          else None
      end
  end

(** Entered at the first character of an element. *)
with JSONArray (fuel : nat) (s : pystr) (acc : list PyObj) {struct fuel}
  : option (PyObj * pystr) :=
  match fuel with
  | O => None
  | S f =>
      match scan_once f s with
      | None => None
      | Some (v, s1) =>
          match skip_ws s1 with
          | [] => None
          | d :: s2 =>
              if d =? 93 then Some (PyList (rev (v :: acc)), s2)
              else if d =? 44 then JSONArray f (skip_ws s2) (v :: acc)
              else None
          end
      end
  end.

(** [json.loads]: one value, white space around it, nothing else. *)
Definition loads (s : pystr) : option PyObj :=
  match scan_once (S (length s)) (skip_ws s) with
  | Some (v, rest) =>
      match skip_ws rest with
      | [] => Some v
      | _ :: _ => None
      end
  | None => None
  end.

End Json.

(* ================================================================== *)
(** ** The Whisper library

    Everything behind [import whisper] is outside the repository.  A
    library call is a function of its arguments that either returns or
    raises; it neither reads nor writes the [MODEL] slot of the adapter
    modules.  [MODEL] may be [None] when module 2 passes it on, so the
    entry points that receive it take an optional model. *)

Class WhisperLib : Type := {
  Model : Type;
  Audio : Type;
  Mel : Type;
  Device : Type;
  Options : Type;
  (** [whisper.load_model(path, in_memory=...)] *)
  whisper_load_model : pystr -> bool -> Outcome Model;
  (** [whisper.transcribe(model, audio, verbose=..., fp16=...)] *)
  whisper_transcribe : option Model -> Audio -> option bool -> bool -> Outcome PyObj;
  (** [whisper.pad_or_trim(audio)] *)
  whisper_pad_or_trim : Audio -> Outcome Audio;
  (** [whisper.log_mel_spectrogram(audio)] *)
  whisper_log_mel_spectrogram : Audio -> Outcome Mel;
  (** [model.device] *)
  model_device : Model -> Device;
  (** [mel.to(device)] *)
  mel_to : Mel -> Device -> Outcome Mel;
  (** [whisper.DecodingOptions(fp16=...)] *)
  whisper_DecodingOptions : bool -> Outcome Options;
  (** [whisper.decode(model, mel, options)] *)
  whisper_decode : option Model -> Mel -> Options -> Outcome PyObj
}.

(* ================================================================== *)
(** ** The process: state, effects and the exception monad *)

Section Process.
Context {W : WhisperLib}.

(** The library calls a run has made, oldest first. *)
Inductive Call : Type :=
| CallLoadModel (path : pystr) (in_memory : bool)
| CallTranscribe (m : option Model) (audio : Audio) (verbose : option bool) (fp16 : bool)
| CallPadOrTrim (audio : Audio)
| CallLogMelSpectrogram (audio : Audio)
| CallTo (mel : Mel) (d : Device)
| CallDecodingOptions (fp16 : bool)
| CallDecode (m : option Model) (mel : Mel) (o : Options).

(** What a module's functions can touch: its global [MODEL], what was
    printed so far (one entry for each call of [print], holding the text
    it was given, which may run over several lines), and the history of
    library calls. *)
Record World : Type := mkWorld {
  MODEL : option Model;
  stdout : list pystr;
  calls : list Call
}.

Definition Py (A : Type) : Type := World -> Outcome A * World.

Definition ret {A} (a : A) : Py A := fun w => (Returns a, w).

Definition bind {A B} (m : Py A) (k : A -> Py B) : Py B :=
  fun w =>
    match m w with
    | (Returns a, w') => k a w'
    | (Raises e, w') => (Raises e, w')
    end.

Definition raise {A} (e : PyExc) : Py A := fun w => (Raises e, w).

(** [try: body  except Exception as e: handler(e)]: an exception that is
    not an instance of [Exception] passes through. *)
Definition try_except_Exception {A} (body : Py A) (handler : PyExc -> Py A) : Py A :=
  fun w =>
    match body w with
    | (Returns a, w') => (Returns a, w')
    | (Raises e, w') =>
        if isinstance_Exception e then handler e w' else (Raises e, w')
    end.

(** Reading and writing the global *)
Definition get_MODEL : Py (option Model) := fun w => (Returns (MODEL w), w).

Definition set_MODEL (m : option Model) : Py unit :=
  fun w => (Returns tt, mkWorld m (stdout w) (calls w)).

(** [print(text)] *)
Definition print (line : pystr) : Py unit :=
  fun w => (Returns tt, mkWorld (MODEL w) (stdout w ++ [line]) (calls w)).

(** A library call: recorded, then its outcome. *)
Definition call {A} (c : Call) (r : Outcome A) : Py A :=
  fun w => (r, mkWorld (MODEL w) (stdout w) (calls w ++ [c])).

(** A pure runtime operation that may raise. *)
Definition lift {A} (r : Outcome A) : Py A := fun w => (r, w).

End Process.

Declare Scope py_scope.
Delimit Scope py_scope with py.
Notation "x <- m ;; k" := (bind m (fun x => k))
  (at level 61, m at next level, right associativity) : py_scope.
Notation "m ;; k" := (bind m (fun _ => k))
  (at level 61, right associativity) : py_scope.
Local Open Scope py_scope.

(* ================================================================== *)
(** ** Module 1: [src/btfm/src/transcribe.py] *)

Module Btfm.
Section Btfm.
Context {U : UnicodeData} {W : WhisperLib}.

(** [MODEL = None] at import time. *)
Definition initial_world : World := mkWorld None [] [].

Definition load_model (path : pystr) : Py unit :=
  m <- call (CallLoadModel path false) (whisper_load_model path false) ;;
  set_MODEL (Some m).

Definition transcribe (audio : Audio) (fp16 : bool) : Py PyObj :=
  let text := PyStr (py "") in
  model <- get_MODEL ;;
  match model with
  | None =>
      print (py "Programmer error, you must load the model first with 'load_model()'") ;;
      ret text
  | Some _ =>
      try_except_Exception
        (result <- call (CallTranscribe model audio None fp16)
                        (whisper_transcribe model audio None fp16) ;;
         text <- lift (getitem result (py "text")) ;;
         ret text)
        (fun e => print (exc_str e) ;; ret text)
  end.

End Btfm.
End Btfm.

(* ================================================================== *)
(** ** Module 2: [src/whisper-server/src/transcribe.py] *)

Module WhisperServer.

(** [ALPHANUMERIC_REGEX = re.compile(r'[^\w\s]')] *)
Definition ALPHANUMERIC_REGEX : Re.pattern :=
  Re.IN true [Re.CATEGORY Re.CATEGORY_UNI_WORD; Re.CATEGORY Re.CATEGORY_UNI_SPACE].

Section WhisperServer.
Context {U : UnicodeData} {W : WhisperLib}.

Definition initial_world : World := mkWorld None [] [].

Definition load_model (path : pystr) : Py unit :=
  m <- call (CallLoadModel path true) (whisper_load_model path true) ;;
  set_MODEL (Some m).

(** The dict literal both functions start from. *)
Definition response_literal : PyObj :=
  PyDict [(py "channel",
           PyDict [(py "alternatives",
                    PyList [PyDict [(py "transcript", PyStr (py ""))]])])].

(** [ALPHANUMERIC_REGEX.sub('', text.lower()).strip()], behind a
    successful [text.lower()]. *)
Definition clean_lowered (lowered : pystr) : pystr :=
  str_strip (Re.sub ALPHANUMERIC_REGEX (fun _ => py "") lowered).

(** The same on a string: the cleaning step of both functions. *)
Definition clean_text (text : pystr) : pystr := clean_lowered (str_lower text).

(** The assignment to [response['channel']['alternatives'][0]['transcript']].
    The three reads reach the innermost dict; the store changes that
    dict, which the outer ones hold by reference, so the new value is
    written back along the path. *)
Definition assign_transcript (response : PyObj) (cleaned_text : pystr) : Py PyObj :=
  channel <- lift (getitem response (py "channel")) ;;
  alternatives <- lift (getitem channel (py "alternatives")) ;;
  first <- lift (getindex alternatives 0) ;;
  first' <- lift (setitem first (py "transcript") (PyStr cleaned_text)) ;;
  alternatives' <- lift (setindex alternatives 0 first') ;;
  channel' <- lift (setitem channel (py "alternatives") alternatives') ;;
  lift (setitem response (py "channel") channel').

Definition transcribe (audio : Audio) : Py pystr :=
  let response := response_literal in
  response <-
    try_except_Exception
      (model <- get_MODEL ;;
       result <- call (CallTranscribe model audio None false)
                      (whisper_transcribe model audio None false) ;;
       text <- lift (getitem result (py "text")) ;;
       lowered <- lift (method_lower text) ;;
       let cleaned_text := clean_lowered lowered in
       assign_transcript response cleaned_text)
      (fun e => print (exc_str e) ;; ret response) ;;
  lift (Json.dumps response).

(** [MODEL.device] *)
Definition MODEL_device : Py Device :=
  model <- get_MODEL ;;
  match model with
  | None => raise (mkExc AttributeError (py "'NoneType' object has no attribute 'device'"))
  | Some m => ret (model_device m)
  end.

Definition transcribe_raw (audio : Audio) : Py pystr :=
  let response := response_literal in
  response <-
    try_except_Exception
      (audio <- call (CallPadOrTrim audio) (whisper_pad_or_trim audio) ;;
       spectrogram <- call (CallLogMelSpectrogram audio)
                           (whisper_log_mel_spectrogram audio) ;;
       device <- MODEL_device ;;
       mel <- call (CallTo spectrogram device) (mel_to spectrogram device) ;;
       options <- call (CallDecodingOptions false) (whisper_DecodingOptions false) ;;
       model <- get_MODEL ;;
       result <- call (CallDecode model mel options) (whisper_decode model mel options) ;;
       text <- lift (getitem result (py "text")) ;;
       lowered <- lift (method_lower text) ;;
       let cleaned_text := clean_lowered lowered in
       assign_transcript response cleaned_text)
      (fun e => print (exc_str e) ;; ret response) ;;
  lift (Json.dumps response).

End WhisperServer.
End WhisperServer.

(* ================================================================== *)
(** ** Reference values and stand-ins for the library *)

(** The serialised response with an empty transcript. *)
Definition EMPTY_RESPONSE_JSON : pystr :=
  jq "{'channel': {'alternatives': [{'transcript': ''}]}}".

(** The response object holding [t] as its transcript. *)
Definition response_with (t : pystr) : PyObj :=
  PyDict [(py "channel",
           PyDict [(py "alternatives",
                    PyList [PyDict [(py "transcript", PyStr t)]])])].

(** The transcript of a serialised response, read back with [json.loads]:
    defined only on an object with the single key [channel], holding an
    object with the single key [alternatives], holding a one-element list
    of an object with the single key [transcript], holding a string. *)
Definition response_transcript (text : pystr) : option pystr :=
  match Json.loads text with
  | Some (PyDict [(k1, PyDict [(k2, PyList [PyDict [(k3, PyStr t)]])])]) =>
      if pystr_eqb k1 (py "channel") && pystr_eqb k2 (py "alternatives")
         && pystr_eqb k3 (py "transcript")
      then Some t else None
  | _ => None
  end.

(** A stand-in library: loading gives [load], inference on a loaded model
    gives [answer], and a missing model is met with the [AttributeError]
    of the first attribute access. *)
Definition stub_whisper (load : Outcome unit) (answer : Outcome PyObj) : WhisperLib := {|
  Model := unit;
  Audio := pystr;
  Mel := unit;
  Device := unit;
  Options := unit;
  whisper_load_model := fun _ _ => load;
  whisper_transcribe := fun m _ _ _ =>
    match m with
    | Some _ => answer
    | None => Raises (mkExc AttributeError (py "'NoneType' object has no attribute 'device'"))
    end;
  whisper_pad_or_trim := fun a => Returns a;
  whisper_log_mel_spectrogram := fun _ => Returns tt;
  model_device := fun _ => tt;
  mel_to := fun m _ => Returns m;
  whisper_DecodingOptions := fun _ => Returns tt;
  whisper_decode := fun _ _ _ => answer
|}.

(** A library whose lower-level primitives fail at a chosen stage. *)
Definition stub_raw (pad : Outcome pystr) (mel : Outcome unit) (decode : Outcome PyObj)
  : WhisperLib := {|
  Model := unit;
  Audio := pystr;
  Mel := unit;
  Device := unit;
  Options := unit;
  whisper_load_model := fun _ _ => Returns tt;
  whisper_transcribe := fun _ _ _ _ => decode;
  whisper_pad_or_trim := fun _ => pad;
  whisper_log_mel_spectrogram := fun _ => mel;
  model_device := fun _ => tt;
  mel_to := fun m _ => Returns m;
  whisper_DecodingOptions := fun _ => Returns tt;
  whisper_decode := fun _ _ _ => decode
|}.

Definition result_dict (text : string) : PyObj :=
  PyDict [(py "text", PyStr (py text)); (py "language", PyStr (py "en"))].

Definition boom : PyExc := mkExc RuntimeError (py "CUDA out of memory").
Definition interrupt : PyExc := mkExc KeyboardInterrupt (py "").

(** Every inference entry point fails with [e]. *)
Definition failing_lib (e : PyExc) : WhisperLib :=
  stub_raw (Raises e) (Raises e) (Raises e).

(** Inference answers with a result dict holding [text]. *)
Definition answering_lib (text : string) : WhisperLib :=
  stub_whisper (Returns tt) (Returns (result_dict text)).

Definition sample : pystr := py "sample.wav".

(** A process of library [L] whose [MODEL] is [m], before any output. *)
Definition world_with (L : WhisperLib) (m : option (@Model L)) : @World L :=
  @mkWorld L m [] [].

(** Four libraries to run the modules against: one out of memory, one
    interrupted from the keyboard, one that hears only punctuation, and
    one that hears a greeting. *)
Definition failing : WhisperLib := failing_lib boom.
Definition interrupted : WhisperLib := failing_lib interrupt.
Definition punctuation : WhisperLib := answering_lib "?!".
Definition greeting : WhisperLib := answering_lib "Hello, World! 123".

(* ================================================================== *)
(** ** Vocabulary of the statements *)

Section Vocabulary.
Context {U : UnicodeData}.

(** What the encoder writes for one character of a string. *)
Definition escape_char (c : N) : pystr :=
  if Re.match_char Json.ESCAPE_ASCII c then Json.replace c else [c].

(** The four forms [escape_char] can take. *)
Inductive escape_shape (c : N) : pystr -> Prop :=
| shape_backslash e d :
    Json.BACKSLASH e = Some d -> e <> 117 -> escape_shape c [92; e]
| shape_plain :
    c <> 34 -> c <> 92 -> 32 <= c -> escape_shape c [c]
| shape_u :
    c < 65536 -> escape_shape c (92 :: 117 :: Json.format_04x c)
| shape_pair s1 s2 :
    Json.is_high_surrogate s1 = true -> Json.is_low_surrogate s2 = true ->
    escape_shape c ((92 :: 117 :: Json.format_04x s1) ++ (92 :: 117 :: Json.format_04x s2)).

(** The text [json.dumps] gives for the response holding [t]. *)
Definition response_json (t : pystr) : pystr :=
  jq "{'channel': {'alternatives': [{'transcript': "
  ++ Json.py_encode_basestring_ascii t ++ jq "}]}}".

(** *** The cleaning step, in the words of the specification *)

Fixpoint drop_leading (p : N -> bool) (s : pystr) : pystr :=
  match s with
  | [] => []
  | c :: s' => if p c then drop_leading p s' else s
  end.

(** Leading and trailing characters satisfying [p] removed. *)
Definition trim (p : N -> bool) (s : pystr) : pystr :=
  rev (drop_leading p (rev (drop_leading p s))).

(** The Unicode word class ([\w]: alphanumeric or underscore) and the
    Unicode white-space class ([\s]). *)
Definition is_word (c : N) : bool := Py_UNICODE_ISALNUM c || (c =? 95).
Definition is_space (c : N) : bool := Py_UNICODE_ISSPACE c.

(** Lowercase, drop what is neither word nor space, trim. *)
Definition clean_spec (s : pystr) : pystr :=
  trim is_space (filter (fun c => is_word c || is_space c) (str_lower s)).

(** The same read over ASCII alone: the class [[A-Za-z0-9_\s]]. *)
Definition ascii_tolower (c : N) : N := if ascii_isupper c then c + 32 else c.
Definition ascii_isspace (c : N) : bool :=
  in_range 9 13 c || in_range 28 31 c || (c =? 32).
Definition in_ascii_class (c : N) : bool :=
  ascii_isupper c || ascii_islower c || ascii_isdigit c || (c =? 95) || ascii_isspace c.
Definition clean_ascii_spec (s : pystr) : pystr :=
  trim ascii_isspace (filter in_ascii_class (map ascii_tolower s)).

(** A code point that lower-casing leaves alone, wherever it stands. *)
Definition lower_fixed (d : N) : Prop :=
  d <> CAPITAL_SIGMA /\ _PyUnicode_ToLowerFull d = [d].

End Vocabulary.

(** What the idempotence of cleaning needs from the case tables: the
    lower-case mapping of a code point consists of code points that are
    their own lower case, and the two small sigmas are among these. *)
Class LowerStable (U : UnicodeData) : Prop := {
  lower_of_lower :
    forall c d, 128 <= c -> c <> CAPITAL_SIGMA -> In d (db_tolower_full c) -> lower_fixed d;
  final_sigma_fixed : db_tolower_full FINAL_SIGMA = [FINAL_SIGMA];
  small_sigma_fixed : db_tolower_full SMALL_SIGMA = [SMALL_SIGMA]
}.

Section ProcessVocabulary.
Context {W : WhisperLib}.

(** A computation that leaves the global [MODEL] as it found it. *)
Definition keeps_MODEL {A} (m : Py A) : Prop :=
  forall w, MODEL (snd (m w)) = MODEL w.

(** The world after one more library call, and after one more call of
    [print]. *)
Definition called (c : Call) (w : World) : World :=
  mkWorld (MODEL w) (stdout w) (calls w ++ [c]).
Definition printed (line : pystr) (w : World) : World :=
  mkWorld (MODEL w) (stdout w ++ [line]) (calls w).

(** One of the library calls of [transcribe_raw] raises [e], the calls
    before it having returned. *)
Inductive raw_library_raises (audio : Audio) (model : option Model) (e : PyExc) : Prop :=
| pad_or_trim_raises :
    whisper_pad_or_trim audio = Raises e ->
    raw_library_raises audio model e
| log_mel_spectrogram_raises padded :
    whisper_pad_or_trim audio = Returns padded ->
    whisper_log_mel_spectrogram padded = Raises e ->
    raw_library_raises audio model e
| to_raises padded spectrogram m :
    whisper_pad_or_trim audio = Returns padded ->
    whisper_log_mel_spectrogram padded = Returns spectrogram ->
    model = Some m ->
    mel_to spectrogram (model_device m) = Raises e ->
    raw_library_raises audio model e
| DecodingOptions_raises padded spectrogram m mel :
    whisper_pad_or_trim audio = Returns padded ->
    whisper_log_mel_spectrogram padded = Returns spectrogram ->
    model = Some m ->
    mel_to spectrogram (model_device m) = Returns mel ->
    whisper_DecodingOptions false = Raises e ->
    raw_library_raises audio model e
| decode_raises padded spectrogram m mel options :
    whisper_pad_or_trim audio = Returns padded ->
    whisper_log_mel_spectrogram padded = Returns spectrogram ->
    model = Some m ->
    mel_to spectrogram (model_device m) = Returns mel ->
    whisper_DecodingOptions false = Returns options ->
    whisper_decode (Some m) mel options = Raises e ->
    raw_library_raises audio model e.

(** What a call of a module 2 function can come to: a JSON text that
    reads back as a response object, or an exception outside
    [Exception] that a library call raised and no handler caught. *)
Definition response_or_propagated (raised : PyExc -> Prop) (r : Outcome pystr) : Prop :=
  (exists s t, r = Returns s /\ Json.loads s = Some (response_with t))
  \/ (exists e, r = Raises e /\ isinstance_Exception e = false /\ raised e).

End ProcessVocabulary.

(* ================================================================== *)
(** ** Further vocabulary: results, code points and more stand-ins *)

(** [result['text'].lower()], the expression both functions of module 2
    evaluate on what the library returned. *)
Definition lowered_text {U : UnicodeData} (result : PyObj) : Outcome pystr :=
  match getitem result (py "text") with
  | Returns text => method_lower text
  | Raises e => Raises e
  end.

(** A Unicode scalar value: a code point that is not a surrogate. *)
Definition is_scalar_value (c : N) : bool :=
  (c <? 55296) || ((57343 <? c) && (c <? 1114112)).

(** The printable ASCII range, from the space to the tilde. *)
Definition is_printable_ascii (c : N) : bool := in_range 32 126 c.

(** A library that does not look at the model it is given. *)
Definition careless : WhisperLib :=
  stub_raw (Returns sample) (Returns tt) (Returns (result_dict "Hi")).

(** A library that answers with a result lacking the [text] entry. *)
Definition keyless : WhisperLib :=
  stub_whisper (Returns tt) (Returns (PyDict [(py "language", PyStr (py "en"))])).

(** A library that answers with an object that has no subscript, as
    whisper's [decode] does with its [DecodingResult]. *)
Definition opaque : WhisperLib :=
  stub_whisper (Returns tt) (Returns (PyOther (py "DecodingResult"))).

(** A library whose model is the name it was loaded from; loading
    [missing.pt] fails, and inference answers with the model's name. *)
Definition named : WhisperLib := {|
  Model := pystr;
  Audio := pystr;
  Mel := unit;
  Device := unit;
  Options := unit;
  whisper_load_model := fun path _ =>
    if pystr_eqb path (py "missing.pt")
    then Raises (mkExc OSError (py "No such file or directory"))
    else Returns path;
  whisper_transcribe := fun m _ _ _ =>
    match m with
    | Some name => Returns (PyDict [(py "text", PyStr name)])
    | None => Raises (mkExc AttributeError (py "'NoneType' object has no attribute 'device'"))
    end;
  whisper_pad_or_trim := fun a => Returns a;
  whisper_log_mel_spectrogram := fun _ => Returns tt;
  model_device := fun _ => tt;
  mel_to := fun m _ => Returns m;
  whisper_DecodingOptions := fun _ => Returns tt;
  whisper_decode := fun m _ _ =>
    match m with
    | Some name => Returns (PyDict [(py "text", PyStr name)])
    | None => Raises (mkExc AttributeError (py "'NoneType' object has no attribute 'dims'"))
    end
|}.

(* ================================================================== *)
(** ** Proof tactics *)

(** Case analysis on the comparisons of the goal, one at a time. *)
Ltac nbool :=
  repeat (match goal with
          | |- context [?a <=? ?b] => destruct (N.leb_spec a b)
          | |- context [?a <? ?b] => destruct (N.ltb_spec a b)
          | |- context [?a =? ?b] => destruct (N.eqb_spec a b)
          end; cbn [andb orb negb xorb]; cbv iota; try lia).

(** Appends nested to the right, and run over the leading cells. *)
Ltac norm := rewrite <- ?app_assoc; cbn [app].

(** Unfolding the monad down to pairs of an outcome and a world. *)
Ltac run :=
  unfold WhisperServer.transcribe, WhisperServer.transcribe_raw, Btfm.transcribe,
    WhisperServer.load_model, Btfm.load_model, WhisperServer.MODEL_device,
    bind, try_except_Exception, call, lift, get_MODEL, set_MODEL, print, ret, raise;
  cbn [fst snd MODEL stdout calls].

(* ================================================================== *)
(** ** The encoder's output is read back by the decoder *)

Section JsonFacts.
Context {U : UnicodeData}.
Import Json.

Lemma hex_value_hexdigit d : d < 16 -> Json.hex_value (Json.hexdigit d) = Some d.
Proof.
  intros Hd. unfold Json.hex_value, Json.hexdigit, in_range.
  destruct (N.ltb_spec d 10); nbool; f_equal; lia.
Qed.

Lemma decode_hexdigits n :
  n < 65536 ->
  decode_uXXXX (hexdigit (n / 4096 mod 16)) (hexdigit (n / 256 mod 16))
               (hexdigit (n / 16 mod 16)) (hexdigit (n mod 16)) = Some n.
Proof.
  intros Hn. unfold Json.decode_uXXXX.
  rewrite !hex_value_hexdigit by (apply N.mod_lt; lia).
  f_equal. zify. Z.to_euclidean_division_equations. lia.
Qed.

Lemma forall_below (P : N -> bool) (n : nat) :
  forallb P (map N.of_nat (seq 0 n)) = true ->
  forall x, x < N.of_nat n -> P x = true.
Proof.
  intros H x Hx. rewrite forallb_forall in H. apply H.
  apply in_map_iff. exists (N.to_nat x). split; [lia|].
  apply in_seq. lia.
Qed.

Lemma high_half x : x < 1024 -> is_high_surrogate (N.lor 55296 x) = true.
Proof.
  revert x. apply (forall_below (fun x => is_high_surrogate (N.lor 55296 x)) 1024).
  vm_compute. reflexivity.
Qed.

Lemma low_half y : y < 1024 -> is_low_surrogate (N.lor 56320 y) = true.
Proof.
  revert y. apply (forall_below (fun y => is_low_surrogate (N.lor 56320 y)) 1024).
  vm_compute. reflexivity.
Qed.

Lemma land_1023 n : N.land n 1023 < 1024.
Proof. change 1023 with (N.ones 10). rewrite N.land_ones. apply N.mod_lt. discriminate. Qed.

Lemma escape_char_shape c : escape_shape c (escape_char c).
Proof.
  unfold escape_char, ESCAPE_ASCII, replace, ESCAPE_DCT.
  cbn [Re.match_char existsb Re.item_match]. unfold in_range.
  nbool; subst;
    try (eapply shape_backslash; [reflexivity | lia]);
    try (apply shape_plain; lia);
    try (apply shape_u; lia).
  all: apply shape_pair; [apply high_half | apply low_half]; apply land_1023.
Qed.

Lemma sub_cons c t :
  Re.sub ESCAPE_ASCII replace (c :: t) = escape_char c ++ Re.sub ESCAPE_ASCII replace t.
Proof. unfold escape_char. cbn [Re.sub]. destruct Re.match_char; reflexivity. Qed.

Lemma high_lt u : is_high_surrogate u = true -> u < 65536 /\ is_low_surrogate u = false.
Proof.
  unfold is_high_surrogate, is_low_surrogate, in_range.
  nbool; intros Hh; try discriminate; split; first [lia | reflexivity].
Qed.

Lemma low_lt u : is_low_surrogate u = true -> u < 65536.
Proof. unfold is_low_surrogate, in_range. nbool; intros Hh; try discriminate; lia. Qed.

Lemma scan_quote rest acc : scanstring (34 :: rest) acc = Some (rev acc, rest).
Proof. reflexivity. Qed.

Lemma scan_backslash e d X acc :
  BACKSLASH e = Some d -> e <> 117 ->
  scanstring (92 :: e :: X) acc = scanstring X (d :: acc).
Proof.
  intros Hd He. cbn [scanstring]. rewrite Hd.
  destruct (N.eqb_spec e 117); [contradiction|]. reflexivity.
Qed.

Lemma scan_plain c X acc :
  c <> 34 -> c <> 92 -> 32 <= c ->
  scanstring (c :: X) acc = scanstring X (c :: acc).
Proof. intros. cbn [scanstring]. nbool. reflexivity. Qed.

(** Behind a [\u] escape the decoder looks ahead for the second half of
    a surrogate pair. *)
Lemma scan_u_head n X acc :
  n < 65536 ->
  scanstring (92 :: 117 :: format_04x n ++ X) acc
  = if is_high_surrogate n then
      match X with
      | b :: s3' =>
          if b =? 92 then
            match s3' with
            | u' :: s3'' =>
                if u' =? 117 then
                  match s3'' with
                  | l1 :: l2 :: l3 :: l4 :: s4 =>
                      match decode_uXXXX l1 l2 l3 l4 with
                      | None => None
                      | Some uni2 =>
                          if is_low_surrogate uni2
                          then scanstring s4
                                 (65536 + N.lor (N.shiftl (n - 55296) 10) (uni2 - 56320) :: acc)
                          else scanstring X (n :: acc)
                      end
                  | _ => None
                  end
                else scanstring X (n :: acc)
            | [] => None
            end
          else scanstring X (n :: acc)
      | [] => None
      end
    else scanstring X (n :: acc).
Proof.
  intros Hn. cbn [scanstring format_04x app].
  rewrite (decode_hexdigits n Hn). reflexivity.
Qed.

Lemma scan_u_alone n X acc :
  n < 65536 -> is_high_surrogate n = false ->
  scanstring (92 :: 117 :: format_04x n ++ X) acc = scanstring X (n :: acc).
Proof. intros Hn Hh. rewrite (scan_u_head n X acc Hn), Hh. reflexivity. Qed.

Lemma scan_u_then_other n b X acc :
  n < 65536 -> b <> 92 ->
  scanstring (92 :: 117 :: format_04x n ++ b :: X) acc = scanstring (b :: X) (n :: acc).
Proof.
  intros Hn Hb. rewrite (scan_u_head n (b :: X) acc Hn).
  destruct (is_high_surrogate n); [|reflexivity].
  destruct (N.eqb_spec b 92); [contradiction|]. reflexivity.
Qed.

Lemma scan_u_then_backslash n e X acc :
  n < 65536 -> e <> 117 ->
  scanstring (92 :: 117 :: format_04x n ++ 92 :: e :: X) acc
  = scanstring (92 :: e :: X) (n :: acc).
Proof.
  intros Hn He. rewrite (scan_u_head n (92 :: e :: X) acc Hn).
  destruct (is_high_surrogate n); [|reflexivity].
  change (92 =? 92) with true. cbv iota.
  destruct (N.eqb_spec e 117); [contradiction|]. reflexivity.
Qed.

Lemma scan_u_then_u n m X acc :
  n < 65536 -> m < 65536 ->
  scanstring (92 :: 117 :: format_04x n ++ 92 :: 117 :: format_04x m ++ X) acc
  = if is_high_surrogate n && is_low_surrogate m
    then scanstring X (65536 + N.lor (N.shiftl (n - 55296) 10) (m - 56320) :: acc)
    else scanstring (92 :: 117 :: format_04x m ++ X) (n :: acc).
Proof.
  intros Hn Hm. rewrite (scan_u_head n (92 :: 117 :: format_04x m ++ X) acc Hn).
  destruct (is_high_surrogate n); [|reflexivity].
  change (92 =? 92) with true. change (117 =? 117) with true.
  cbn [format_04x app andb]. cbv iota.
  rewrite (decode_hexdigits m Hm).
  destruct (is_low_surrogate m); reflexivity.
Qed.

Lemma scan_step c t1 rest acc :
  exists t' x, (length t' <= length t1)%nat /\
    scanstring (Re.sub ESCAPE_ASCII replace (c :: t1) ++ 34 :: rest) acc = scanstring (Re.sub ESCAPE_ASCII replace t' ++ 34 :: rest) (x :: acc).
Proof.
  pose proof (escape_char_shape c) as Sh.
  remember (escape_char c) as E eqn:Heq.
  destruct Sh as [e d Hd He | Hq Hb Hlo | Hlt | s1 s2 H1 H2];
    rewrite (sub_cons c t1), <- Heq.
  - exists t1, d. split; [lia|]. norm. now apply scan_backslash.
  - exists t1, c. split; [lia|]. norm. now apply scan_plain.
  - destruct (is_high_surrogate c) eqn:Hh.
    + destruct t1 as [|c2 t2].
      * exists [], c. split; [cbn; lia|]. cbn [Re.sub]. norm. apply scan_u_then_other; lia.
      * pose proof (escape_char_shape c2) as Sh2.
        remember (escape_char c2) as E2 eqn:Heq2.
        destruct Sh2 as [e d Hd He | Hq Hb Hlo | Hlt2 | s1 s2 H1 H2].
        -- exists (c2 :: t2), c. split; [lia|]. rewrite (sub_cons c2 t2), <- Heq2. norm.
           now apply scan_u_then_backslash.
        -- exists (c2 :: t2), c. split; [lia|]. rewrite (sub_cons c2 t2), <- Heq2. norm.
           now apply scan_u_then_other.
        -- destruct (is_low_surrogate c2) eqn:Hl.
           ++ exists t2, (65536 + N.lor (N.shiftl (c - 55296) 10) (c2 - 56320)).
              split; [cbn; lia|]. rewrite (sub_cons c2 t2), <- Heq2. norm.
              rewrite scan_u_then_u by assumption. rewrite Hh, Hl. reflexivity.
           ++ exists (c2 :: t2), c. split; [lia|]. rewrite (sub_cons c2 t2), <- Heq2. norm.
              rewrite scan_u_then_u by assumption. rewrite Hh, Hl. reflexivity.
        -- exists (c2 :: t2), c. split; [lia|]. rewrite (sub_cons c2 t2), <- Heq2. norm.
           destruct (high_lt _ H1) as [L1 NL1].
           rewrite scan_u_then_u by assumption. rewrite Hh, NL1. reflexivity.
    + exists t1, c. split; [lia|]. norm. now apply scan_u_alone.
  - exists t1, (65536 + N.lor (N.shiftl (s1 - 55296) 10) (s2 - 56320)). split; [lia|].
    norm.
    destruct (high_lt _ H1) as [L1 _]. pose proof (low_lt _ H2) as L2.
    rewrite scan_u_then_u by assumption. rewrite H1, H2. reflexivity.
Qed.

Lemma scanstring_escaped n :
  forall t, (length t <= n)%nat -> forall rest acc,
  exists t', scanstring (Re.sub ESCAPE_ASCII replace t ++ 34 :: rest) acc = Some (rev acc ++ t', rest)
             /\ (t <> [] -> t' <> []).
Proof.
  induction n as [|n IH]; intros t Hlen rest acc.
  - destruct t; [|cbn in Hlen; lia]. exists []. split; [|congruence].
    cbn [Re.sub app]. rewrite app_nil_r. apply scan_quote.
  - destruct t as [|c t1].
    + exists []. split; [|congruence]. cbn [Re.sub app]. rewrite app_nil_r. apply scan_quote.
    + destruct (scan_step c t1 rest acc) as (t2 & x & Hle & Heq).
      cbn [length] in Hlen.
      destruct (IH t2 ltac:(lia) rest (x :: acc)) as (t3 & Hscan & _).
      exists (x :: t3). split; [|discriminate].
      rewrite Heq, Hscan. cbn [rev]. rewrite <- app_assoc. reflexivity.
Qed.

Lemma response_json_eq t :
  response_json t
  = jq "{'channel': {'alternatives': [{'transcript': '" ++ Re.sub ESCAPE_ASCII replace t ++ 34 :: jq "}]}}".
Proof.
  unfold response_json, py_encode_basestring_ascii.
  change (jq "{'channel': {'alternatives': [{'transcript': '")
    with (jq "{'channel': {'alternatives': [{'transcript': " ++ [34]).
  cbn [app]. rewrite <- !app_assoc. reflexivity.
Qed.

Lemma scan_once_string f s :
  scan_once (S f) (34 :: s)
  = match scanstring s [] with
    | Some (t, rest) => Some (PyStr t, rest)
    | None => None
    end.
Proof. reflexivity. Qed.

Lemma scanstring_key (k : string) rest :
  forallb (fun c => negb (c =? 34) && negb (c =? 92) && (32 <=? c)) (py k) = true ->
  forall acc, scanstring (py k ++ 34 :: rest) acc = Some (rev acc ++ py k, rest).
Proof.
  induction (py k) as [|c l IH]; intros Hk acc.
  - cbn [app]. rewrite app_nil_r. reflexivity.
  - cbn [forallb] in Hk. apply andb_prop in Hk as [Hc Hl].
    apply andb_prop in Hc as [Hc H32]. apply andb_prop in Hc as [H34 H92].
    cbn [app]. rewrite scan_plain.
    + rewrite (IH Hl). cbn [rev]. rewrite <- app_assoc. reflexivity.
    + intros ->. discriminate.
    + intros ->. discriminate.
    + now apply N.leb_le.
Qed.

(** An object with one member, written as the encoder writes it. *)
Lemma scan_once_object1 f k v s3 s5 :
  forallb (fun c => negb (c =? 34) && negb (c =? 92) && (32 <=? c)) (py k) = true ->
  skip_ws s3 = s3 ->
  scan_once f s3 = Some (v, 125 :: s5) ->
  scan_once (S (S f)) (123 :: 34 :: py k ++ 34 :: 58 :: 32 :: s3)
  = Some (PyDict [(py k, v)], s5).
Proof.
  intros Hk Hws Hv.
  cbn [scan_once]. change (123 =? 34) with false. change (123 =? 123) with true. cbv iota.
  change (skip_ws (34 :: py k ++ 34 :: 58 :: 32 :: s3)) with (34 :: py k ++ 34 :: 58 :: 32 :: s3).
  change (34 =? 125) with false. cbv iota.
  cbn [JSONObject]. change (34 =? 34) with true. cbv iota.
  rewrite (scanstring_key k _ Hk []). cbn [rev app].
  change (skip_ws (58 :: 32 :: s3)) with (58 :: 32 :: s3). cbv iota.
  change (58 =? 58) with true. cbv iota.
  change (skip_ws (32 :: s3)) with (skip_ws s3).
  rewrite Hws, Hv. reflexivity.
Qed.

(** A list with one element. *)
Lemma scan_once_array1 f v c s s2 :
  is_ws c = false -> c <> 93 ->
  scan_once f (c :: s) = Some (v, 93 :: s2) ->
  scan_once (S (S f)) (91 :: c :: s) = Some (PyList [v], s2).
Proof.
  intros Hws Hc Hv.
  cbn [scan_once]. change (91 =? 34) with false. change (91 =? 123) with false.
  change (91 =? 91) with true. cbv iota.
  cbn [skip_ws]. rewrite Hws.
  destruct (N.eqb_spec c 93); [contradiction|].
  cbn [JSONArray]. rewrite Hv. reflexivity.
Qed.

Lemma loads_skeleton X t' :
  scanstring X [] = Some (t', jq "}]}}") ->
  loads (jq "{'channel': {'alternatives': [{'transcript': '" ++ X) = Some (response_with t').
Proof.
  intros H. unfold loads. rewrite length_app.
  change (length (jq "{'channel': {'alternatives': [{'transcript': '")) with (8 + 38)%nat.
  rewrite <- Nat.add_assoc, <- plus_Sn_m.
  change (S 8) with 9%nat.
  set (f := (38 + length X)%nat).
  change (skip_ws (jq "{'channel': {'alternatives': [{'transcript': '" ++ X))
    with (123 :: 34 :: py "channel" ++ 34 :: 58 :: 32 ::
          123 :: 34 :: py "alternatives" ++ 34 :: 58 :: 32 ::
          91 :: 123 :: 34 :: py "transcript" ++ 34 :: 58 :: 32 :: 34 :: X).
  rewrite (scan_once_object1 (7 + f) "channel"
             (PyDict [(py "alternatives", PyList [PyDict [(py "transcript", PyStr t')]])]) _ []).
  - reflexivity.
  - reflexivity.
  - reflexivity.
  - rewrite (scan_once_object1 (5 + f) "alternatives"
               (PyList [PyDict [(py "transcript", PyStr t')]]) _ [125]).
    + reflexivity.
    + reflexivity.
    + reflexivity.
    + apply (scan_once_array1 (3 + f)); [reflexivity | discriminate |].
      rewrite (scan_once_object1 (1 + f) "transcript" (PyStr t') _ [93; 125; 125]).
      * reflexivity.
      * reflexivity.
      * cbn [skip_ws]. reflexivity.
      * change (1 + f)%nat with (S f). rewrite scan_once_string, H. reflexivity.
Qed.

Lemma loads_response_json t :
  exists t', loads (response_json t) = Some (response_with t') /\ (t <> [] -> t' <> []).
Proof.
  destruct (scanstring_escaped (length t) t (le_n _) (jq "}]}}") []) as (t' & H & Hne).
  exists t'. split; [|exact Hne].
  rewrite response_json_eq. apply loads_skeleton. exact H.
Qed.

Lemma response_transcript_json t :
  exists t', response_transcript (response_json t) = Some t' /\ (t <> [] -> t' <> []).
Proof.
  destruct (loads_response_json t) as (t' & H & Hne).
  exists t'. split; [|exact Hne].
  unfold response_transcript. rewrite H. reflexivity.
Qed.

End JsonFacts.

(* ================================================================== *)
(** ** The cleaning step *)

Section CleanFacts.
Context {U : UnicodeData}.

Lemma sub_is_filter s :
  Re.sub WhisperServer.ALPHANUMERIC_REGEX (fun _ => py "") s
  = filter (fun c => is_word c || is_space c) s.
Proof.
  induction s as [|c s IH]; [reflexivity|].
  cbn [Re.sub filter Re.match_char WhisperServer.ALPHANUMERIC_REGEX existsb
       Re.item_match Re.category_match].
  rewrite orb_false_r. fold (is_word c). fold (is_space c).
  rewrite IH. destruct (is_word c || is_space c); reflexivity.
Qed.

(** *** Leading white space *)

Lemma strip_left_index_shift s i :
  strip_left_index s i = (i + strip_left_index s 0)%nat.
Proof.
  revert i. induction s as [|c s IH]; intros i; cbn [strip_left_index]; [lia|].
  destruct (Py_UNICODE_ISSPACE c); [|lia].
  rewrite (IH (S i)), (IH 1%nat). lia.
Qed.

Lemma strip_left_split s :
  exists P, s = P ++ drop_leading is_space s /\ strip_left_index s 0 = length P.
Proof.
  induction s as [|c s (P & Hs & Hi)].
  - exists []. split; reflexivity.
  - cbn [drop_leading strip_left_index]. unfold is_space at 1.
    destruct (Py_UNICODE_ISSPACE c).
    + exists (c :: P). split.
      * cbn [app]. f_equal. exact Hs.
      * rewrite strip_left_index_shift, Hi. reflexivity.
    + exists []. split; reflexivity.
Qed.

(** *** Trailing white space *)

Lemma drop_leading_split p s :
  exists T, s = T ++ drop_leading p s /\ forallb p T = true.
Proof.
  induction s as [|c s (T & Hs & HT)].
  - exists []. split; reflexivity.
  - cbn [drop_leading]. destruct (p c) eqn:Hc.
    + exists (c :: T). split; [cbn [app]; f_equal; exact Hs|].
      cbn [forallb]. now rewrite Hc, HT.
    + exists []. split; reflexivity.
Qed.

Lemma drop_leading_head p s :
  drop_leading p s = [] \/ exists c y, drop_leading p s = c :: y /\ p c = false.
Proof.
  induction s as [|c s IH]; [left; reflexivity|].
  cbn [drop_leading]. destruct (p c) eqn:Hc; [exact IH|].
  right. exists c, s. split; [reflexivity|exact Hc].
Qed.

Lemma nth_middle_app (P R : pystr) c X :
  nth (length (P ++ R)) (P ++ R ++ c :: X) 0 = c.
Proof. rewrite app_assoc. apply nth_middle. Qed.

(** [j] stops at the end of [R] when only white space follows and [R]
    does not end in white space. *)
Lemma strip_right_index_stops (P R T X : pystr) :
  forallb is_space T = true ->
  (R = [] \/ exists R' r, R = R' ++ [r] /\ is_space r = false) ->
  strip_right_index (P ++ R ++ T ++ X) (length P) (length (P ++ R ++ T))
  = length (P ++ R).
Proof.
  revert X. induction T as [|c T IH] using rev_ind; intros X HT HR.
  - cbn [app]. rewrite app_nil_r.
    destruct HR as [-> | (R' & r & -> & Hr)].
    + rewrite app_nil_r. destruct P as [|p P]; [reflexivity|].
      cbn [length strip_right_index].
      replace (Nat.leb (S (length P)) (length P)) with false; [reflexivity|].
      symmetry. apply Nat.leb_gt. lia.
    + replace (length (P ++ R' ++ [r])) with (S (length (P ++ R')))
        by (rewrite !length_app; cbn [length]; lia).
      cbn [strip_right_index].
      rewrite <- (app_assoc R' [r] X). cbn [app].
      rewrite nth_middle_app. unfold is_space in Hr. rewrite Hr, andb_false_r.
      reflexivity.
  - rewrite forallb_app in HT. apply andb_prop in HT as [HT Hc].
    cbn [forallb] in Hc. rewrite andb_true_r in Hc.
    replace (length (P ++ R ++ T ++ [c])) with (S (length (P ++ R ++ T)))
      by (rewrite !length_app; cbn [length]; lia).
    cbn [strip_right_index].
    replace (Nat.leb (length P) (length (P ++ R ++ T))) with true
      by (symmetry; apply Nat.leb_le; rewrite length_app; lia).
    replace (nth (length (P ++ R ++ T)) (P ++ R ++ (T ++ [c]) ++ X) 0) with c.
    + unfold is_space in Hc. rewrite Hc. cbn [andb].
      rewrite <- (app_assoc T [c] X). apply IH; assumption.
    + rewrite <- (app_assoc T [c] X). cbn [app].
      rewrite (app_assoc R T), (app_assoc P (R ++ T)).
      symmetry. apply nth_middle.
Qed.

Lemma str_strip_is_trim s : str_strip s = trim is_space s.
Proof.
  unfold str_strip, trim, PyUnicode_Substring.
  destruct (strip_left_split s) as (P & Hs & Hi).
  set (L := drop_leading is_space s) in *.
  destruct (drop_leading_split is_space (rev L)) as (T & HL & HT).
  set (Rr := drop_leading is_space (rev L)) in *.
  assert (HLs : L = rev Rr ++ rev T).
  { rewrite <- rev_app_distr, <- HL, rev_involutive. reflexivity. }
  assert (HRend : rev Rr = [] \/ exists R' r, rev Rr = R' ++ [r] /\ is_space r = false).
  { destruct (drop_leading_head is_space (rev L)) as [E | (c & y & E & Hc)]; fold Rr in E.
    - left. rewrite E. reflexivity.
    - right. exists (rev y), c. rewrite E. split; [reflexivity|exact Hc]. }
  assert (HTs : forallb is_space (rev T) = true).
  { rewrite forallb_forall in *. intros x Hx. apply HT. now apply in_rev. }
  rewrite Hi.
  assert (Hj : strip_right_index s (length P) (length s) = length (P ++ rev Rr)).
  { rewrite Hs at 1 2. rewrite HLs.
    pose proof (strip_right_index_stops P (rev Rr) (rev T) [] HTs HRend) as Hstop.
    rewrite !app_nil_r in Hstop. exact Hstop. }
  rewrite Hj, length_app.
  replace (length P + length (rev Rr) - length P)%nat with (length (rev Rr)) by lia.
  rewrite Hs at 1. rewrite skipn_app, Nat.sub_diag, skipn_all. cbn [skipn app].
  rewrite HLs. rewrite firstn_app, Nat.sub_diag, firstn_all. cbn [firstn].
  apply app_nil_r.
Qed.

Lemma clean_text_is_clean_spec s : WhisperServer.clean_text s = clean_spec s.
Proof.
  unfold WhisperServer.clean_text, WhisperServer.clean_lowered, clean_spec.
  rewrite sub_is_filter. apply str_strip_is_trim.
Qed.
End CleanFacts.

Section TrimFacts.
Context {U : UnicodeData}.

Lemma drop_leading_fix p c y : p c = false -> drop_leading p (c :: y) = c :: y.
Proof. intros H. cbn [drop_leading]. now rewrite H. Qed.

Lemma drop_leading_idem p s : drop_leading p (drop_leading p s) = drop_leading p s.
Proof.
  destruct (drop_leading_head p s) as [E | (c & y & E & Hc)]; rewrite E.
  - reflexivity.
  - now apply drop_leading_fix.
Qed.

Lemma drop_leading_snoc p a c :
  p c = false -> drop_leading p (a ++ [c]) = drop_leading p a ++ [c].
Proof.
  intros Hc. induction a as [|x a IH]; cbn [app drop_leading].
  - now rewrite Hc.
  - destruct (p x); [exact IH | reflexivity].
Qed.

(** The trimmed text keeps the first character that is not trimmed away. *)
Lemma trim_cons p s c y :
  drop_leading p s = c :: y -> p c = false ->
  trim p s = c :: rev (drop_leading p (rev y)).
Proof.
  intros E Hc. unfold trim. rewrite E. cbn [rev].
  rewrite (drop_leading_snoc p (rev y) c Hc), rev_app_distr. reflexivity.
Qed.

Lemma trim_idem p s : trim p (trim p s) = trim p s.
Proof.
  destruct (drop_leading_head p s) as [E | (c & y & E & Hc)].
  - assert (H : trim p s = []) by (unfold trim; rewrite E; reflexivity).
    rewrite H. reflexivity.
  - rewrite (trim_cons p s c y E Hc).
    rewrite (trim_cons p _ c (rev (drop_leading p (rev y)))); [|now apply drop_leading_fix|exact Hc].
    rewrite rev_involutive, drop_leading_idem. reflexivity.
Qed.

Lemma drop_leading_Forall (P : N -> Prop) p s : Forall P s -> Forall P (drop_leading p s).
Proof.
  induction 1 as [|c s Hc Hs IH]; cbn [drop_leading]; [constructor|].
  destruct (p c); [exact IH | now constructor].
Qed.

Lemma trim_Forall (P : N -> Prop) p s : Forall P s -> Forall P (trim p s).
Proof.
  intros H. unfold trim.
  apply Forall_rev, drop_leading_Forall, Forall_rev, drop_leading_Forall, H.
Qed.

Lemma drop_leading_nonempty p s c :
  In c s -> p c = false -> drop_leading p s <> [].
Proof.
  induction s as [|x s IH]; intros Hin Hc; [contradiction|].
  cbn [drop_leading]. destruct (p x) eqn:Hx; [|discriminate].
  destruct Hin as [-> | Hin]; [congruence|]. now apply IH.
Qed.

Lemma trim_nonempty p s c : In c s -> p c = false -> trim p s <> [].
Proof.
  intros Hin Hc.
  destruct (drop_leading_head p s) as [E | (x & y & E & Hx)].
  - exfalso. exact (drop_leading_nonempty p s c Hin Hc E).
  - rewrite (trim_cons p s x y E Hx). discriminate.
Qed.

Lemma drop_leading_ext p q s :
  (forall c, In c s -> p c = q c) -> drop_leading p s = drop_leading q s.
Proof.
  induction s as [|x s IH]; intros H; [reflexivity|].
  cbn [drop_leading]. rewrite <- (H x (or_introl eq_refl)).
  destruct (p x); [|reflexivity]. apply IH. intros c Hc. apply H. now right.
Qed.

Lemma drop_leading_incl p s c : In c (drop_leading p s) -> In c s.
Proof.
  induction s as [|x s IH]; [trivial|].
  cbn [drop_leading]. destruct (p x); [|trivial]. intros H. right. now apply IH.
Qed.

Lemma trim_ext p q s :
  (forall c, In c s -> p c = q c) -> trim p s = trim q s.
Proof.
  intros H. unfold trim.
  rewrite (drop_leading_ext p q s H). f_equal.
  apply drop_leading_ext. intros c Hc. apply H.
  apply in_rev in Hc. now apply drop_leading_incl in Hc.
Qed.

Lemma filter_fixed (f : N -> bool) s : Forall (fun c => f c = true) s -> filter f s = s.
Proof.
  induction 1 as [|c s Hc Hs IH]; [reflexivity|].
  cbn [filter]. now rewrite Hc, IH.
Qed.

Lemma filter_Forall_true (f : N -> bool) s : Forall (fun c => f c = true) (filter f s).
Proof. apply Forall_forall. intros c Hc. now apply filter_In in Hc. Qed.

(** *** Lower-casing *)

Lemma ascii_lower_fixed c : c < 128 -> Forall lower_fixed (_PyUnicode_ToLowerFull c).
Proof.
  intros Hc. unfold _PyUnicode_ToLowerFull.
  destruct (N.ltb_spec c 128); [|lia].
  constructor; [|constructor]. unfold lower_fixed, _PyUnicode_ToLowerFull, CAPITAL_SIGMA.
  unfold ascii_isupper, in_range.
  nbool; split; try lia; try reflexivity.
Qed.

Lemma lower_ucs4_fixed `{!LowerStable U} before c after :
  Forall lower_fixed (lower_ucs4 before c after).
Proof.
  unfold lower_ucs4. destruct (N.eqb_spec c CAPITAL_SIGMA) as [->|Hc].
  - constructor; [|constructor]. unfold handle_capital_sigma.
    match goal with |- lower_fixed (if ?b then _ else _) => destruct b end;
      (split; [discriminate|]); unfold _PyUnicode_ToLowerFull; cbn.
    + apply final_sigma_fixed.
    + apply small_sigma_fixed.
  - destruct (N.ltb_spec c 128) as [Hlt|Hge].
    + now apply ascii_lower_fixed.
    + apply Forall_forall. intros d Hd. unfold _PyUnicode_ToLowerFull in Hd.
      destruct (N.ltb_spec c 128); [lia|].
      eapply lower_of_lower; eauto.
Qed.

Lemma do_lower_fixed_out `{!LowerStable U} s : forall before, Forall lower_fixed (do_lower before s).
Proof.
  induction s as [|c s IH]; intros before; cbn [do_lower]; [constructor|].
  apply Forall_app. split; [apply lower_ucs4_fixed | apply IH].
Qed.

Lemma do_lower_of_fixed s :
  Forall lower_fixed s -> forall before, do_lower before s = s.
Proof.
  induction 1 as [|c s [Hc Hl] Hs IH]; intros before; [reflexivity|].
  cbn [do_lower]. unfold lower_ucs4.
  destruct (N.eqb_spec c CAPITAL_SIGMA); [contradiction|].
  rewrite Hl, IH. reflexivity.
Qed.

Lemma clean_spec_idempotent `{!LowerStable U} s : clean_spec (clean_spec s) = clean_spec s.
Proof.
  unfold clean_spec at 1.
  assert (Hfix : Forall lower_fixed (clean_spec s)).
  { unfold clean_spec. apply trim_Forall.
    apply Forall_forall. intros c Hc. apply filter_In in Hc as [Hc _].
    revert c Hc. apply Forall_forall. apply do_lower_fixed_out. }
  unfold str_lower. rewrite (do_lower_of_fixed _ Hfix).
  assert (Hkeep : Forall (fun c => is_word c || is_space c = true) (clean_spec s)).
  { unfold clean_spec. apply trim_Forall, filter_Forall_true. }
  rewrite (filter_fixed _ _ Hkeep).
  unfold clean_spec. apply trim_idem.
Qed.

(** *** ASCII text *)

Lemma do_lower_ascii s :
  Forall (fun c => c < 128) s -> forall before, do_lower before s = map ascii_tolower s.
Proof.
  induction 1 as [|c s Hc Hs IH]; intros before; [reflexivity|].
  cbn [do_lower map]. rewrite IH. unfold lower_ucs4, _PyUnicode_ToLowerFull, CAPITAL_SIGMA.
  destruct (N.eqb_spec c 931); [lia|].
  destruct (N.ltb_spec c 128); [|lia]. reflexivity.
Qed.

Lemma ascii_tolower_lt c : c < 128 -> ascii_tolower c < 128.
Proof. unfold ascii_tolower, ascii_isupper, in_range. nbool. Qed.

Lemma ascii_class_agrees c : c < 128 -> is_word c || is_space c = in_ascii_class c.
Proof.
  intros Hc. unfold is_word, is_space, in_ascii_class, Py_UNICODE_ISALNUM, Py_UNICODE_ISSPACE,
    ascii_isspace.
  destruct (N.ltb_spec c 128); [reflexivity | lia].
Qed.

Lemma ascii_space_agrees c : c < 128 -> is_space c = ascii_isspace c.
Proof.
  intros Hc. unfold is_space, Py_UNICODE_ISSPACE, ascii_isspace.
  destruct (N.ltb_spec c 128); [reflexivity | lia].
Qed.

Lemma clean_spec_ascii s :
  Forall (fun c => c < 128) s -> clean_spec s = clean_ascii_spec s.
Proof.
  intros Hs. unfold clean_spec, clean_ascii_spec, str_lower.
  rewrite (do_lower_ascii s Hs).
  assert (Hm : forall c, In c (map ascii_tolower s) -> c < 128).
  { intros c Hc. apply in_map_iff in Hc as (x & <- & Hx).
    apply ascii_tolower_lt. rewrite Forall_forall in Hs. now apply Hs. }
  rewrite (filter_ext_in _ in_ascii_class).
  - apply trim_ext. intros c Hc. apply ascii_space_agrees, Hm.
    now apply filter_In in Hc.
  - intros c Hc. apply ascii_class_agrees, Hm, Hc.
Qed.
End TrimFacts.

(* ================================================================== *)
(** ** The two modules *)

Section ProcessFacts.
Context {U : UnicodeData} {W : WhisperLib}.

Lemma assign_transcript_literal t w :
  WhisperServer.assign_transcript WhisperServer.response_literal t w
  = (Returns (response_with t), w).
Proof. reflexivity. Qed.

Lemma dumps_response_with t : Json.dumps (response_with t) = Returns (response_json t).
Proof.
  unfold response_json, Json.py_encode_basestring_ascii. cbn.
  rewrite <- !app_assoc. reflexivity.
Qed.

Lemma dumps_response_literal :
  Json.dumps WhisperServer.response_literal = Returns EMPTY_RESPONSE_JSON.
Proof. reflexivity. Qed.

Lemma getitem_raises_Exception o k e :
  getitem o k = Raises e -> isinstance_Exception e = true.
Proof.
  destruct o; cbn [getitem]; try (intros [= <-]; reflexivity).
  destruct dict_lookup; intros [= <-]; reflexivity.
Qed.

Lemma method_lower_raises_Exception o e :
  method_lower o = Raises e -> isinstance_Exception e = true.
Proof. destruct o; cbn [method_lower]; intros [= <-]; reflexivity. Qed.

(** *** The frame of [MODEL], piece by piece *)

Lemma keeps_ret {A} (a : A) : keeps_MODEL (ret a).
Proof. intros w. reflexivity. Qed.

Lemma keeps_raise {A} e : keeps_MODEL (@raise W A e).
Proof. intros w. reflexivity. Qed.

Lemma keeps_lift {A} (r : Outcome A) : keeps_MODEL (lift r).
Proof. intros w. reflexivity. Qed.

Lemma keeps_call {A} c (r : Outcome A) : keeps_MODEL (call c r).
Proof. intros w. reflexivity. Qed.

Lemma keeps_print line : keeps_MODEL (print line).
Proof. intros w. reflexivity. Qed.

Lemma keeps_get_MODEL : keeps_MODEL get_MODEL.
Proof. intros w. reflexivity. Qed.

Lemma keeps_bind {A B} (m : Py A) (k : A -> Py B) :
  keeps_MODEL m -> (forall a, keeps_MODEL (k a)) -> keeps_MODEL (bind m k).
Proof.
  intros Hm Hk w. unfold bind. specialize (Hm w).
  destruct (m w) as [[a|e] w']; cbn [snd] in *.
  - rewrite Hk. exact Hm.
  - exact Hm.
Qed.

Lemma keeps_try {A} (body : Py A) handler :
  keeps_MODEL body -> (forall e, keeps_MODEL (handler e)) ->
  keeps_MODEL (try_except_Exception body handler).
Proof.
  intros Hb Hh w. unfold try_except_Exception. specialize (Hb w).
  destruct (body w) as [[a|e] w']; cbn [snd] in *.
  - exact Hb.
  - destruct (isinstance_Exception e); cbn [snd].
    + rewrite Hh. exact Hb.
    + exact Hb.
Qed.

End ProcessFacts.

Create HintDb frame.
#[local] Hint Resolve keeps_ret keeps_raise keeps_lift keeps_call keeps_print
  keeps_get_MODEL : frame.

Ltac frame :=
  repeat first
    [ progress auto with frame
    | apply keeps_bind; [|intro]
    | apply keeps_try; [|intro]
    | match goal with
      | |- keeps_MODEL (match ?x with Some _ => _ | None => _ end) => destruct x
      end ].

Ltac outcomes :=
  repeat (match goal with
          | H : getitem _ _ = Raises ?e |- context [isinstance_Exception ?e] =>
              rewrite (getitem_raises_Exception _ _ _ H)
          | H : method_lower _ = Raises ?e |- context [isinstance_Exception ?e] =>
              rewrite (method_lower_raises_Exception _ _ H)
          | H : ?x = _ |- context [match ?x with Returns _ => _ | Raises _ => _ end] =>
              rewrite H
          | H : isinstance_Exception ?e = _ |- context [isinstance_Exception ?e] =>
              rewrite H
          | |- context [WhisperServer.assign_transcript WhisperServer.response_literal ?t ?w] =>
              rewrite (assign_transcript_literal t w)
          | |- context [Json.dumps (response_with ?t)] => rewrite (dumps_response_with t)
          | |- context [Json.dumps WhisperServer.response_literal] =>
              rewrite dumps_response_literal
          | |- context [match ?x with Returns _ => _ | Raises _ => _ end] =>
              destruct x eqn:?
          | |- context [if isinstance_Exception ?e then _ else _] =>
              destruct (isinstance_Exception e) eqn:?
          end; cbn [fst snd MODEL stdout calls]).

Section Claims.
Context {U : UnicodeData} {W : WhisperLib}.

(** C10. In both modules a call of [transcribe], and of [transcribe_raw]
    in module 2, leaves the global [MODEL] as it was, whichever way the
    call ends: the functions read the slot and never write it. *)
Theorem transcribe_keeps_MODEL :
  (forall audio fp16, keeps_MODEL (Btfm.transcribe audio fp16))
  /\ (forall audio, keeps_MODEL (WhisperServer.transcribe audio))
  /\ (forall audio, keeps_MODEL (WhisperServer.transcribe_raw audio)).
Proof.
  repeat split; intros.
  - unfold Btfm.transcribe. frame.
  - unfold WhisperServer.transcribe, WhisperServer.assign_transcript. frame.
  - unfold WhisperServer.transcribe_raw, WhisperServer.assign_transcript,
      WhisperServer.MODEL_device. frame.
Qed.

(** C9. [load_model] of either module stores the model the library
    loaded in [MODEL], whatever was there before, and returns [None];
    when the library's load raises, the exception reaches the caller,
    whatever its class, and [MODEL] is not touched. *)
Theorem load_model_sets_MODEL_or_propagates path w :
  match whisper_load_model path false with
  | Returns m =>
      fst (Btfm.load_model path w) = Returns tt
      /\ MODEL (snd (Btfm.load_model path w)) = Some m
  | Raises e =>
      fst (Btfm.load_model path w) = Raises e
      /\ MODEL (snd (Btfm.load_model path w)) = MODEL w
  end
  /\
  match whisper_load_model path true with
  | Returns m =>
      fst (WhisperServer.load_model path w) = Returns tt
      /\ MODEL (snd (WhisperServer.load_model path w)) = Some m
  | Raises e =>
      fst (WhisperServer.load_model path w) = Raises e
      /\ MODEL (snd (WhisperServer.load_model path w)) = MODEL w
  end.
Proof.
  run. split.
  - destruct (whisper_load_model path false); split; reflexivity.
  - destruct (whisper_load_model path true); split; reflexivity.
Qed.

(** C3, as amended. In module 1, with [MODEL] set, when the library's
    [transcribe] raises: an exception that is an instance of [Exception]
    is printed and the empty string is returned; an exception of any
    other class passes the handler and reaches the caller.  Either way
    the library was called once and not again. *)
Theorem btfm_transcribe_swallows_Exception audio fp16 w m e :
  MODEL w = Some m ->
  whisper_transcribe (Some m) audio None fp16 = Raises e ->
  Btfm.transcribe audio fp16 w
  = if isinstance_Exception e
    then (Returns (PyStr (py "")),
          printed (exc_str e) (called (CallTranscribe (Some m) audio None fp16) w))
    else (Raises e, called (CallTranscribe (Some m) audio None fp16) w).
Proof.
  intros HM Hr. run. rewrite HM. cbn [fst snd MODEL stdout calls].
  rewrite Hr. destruct (isinstance_Exception e); reflexivity.
Qed.

(** C7. In module 1, with [MODEL] set, when the library's [transcribe]
    returns, [transcribe] returns the value found under the key [text] of
    the result, unchanged, and prints nothing. *)
Theorem btfm_transcribe_returns_raw_text audio fp16 w m result text :
  MODEL w = Some m ->
  whisper_transcribe (Some m) audio None fp16 = Returns result ->
  getitem result (py "text") = Returns text ->
  Btfm.transcribe audio fp16 w
  = (Returns text, called (CallTranscribe (Some m) audio None fp16) w).
Proof.
  intros HM Hr Ht. run. rewrite HM. cbn [fst snd MODEL stdout calls].
  rewrite Hr, Ht. reflexivity.
Qed.

(** C2, as amended. With [MODEL] unset, [transcribe] of module 1 prints
    its notice and returns the empty string without calling the library.
    Module 2 has no test of [MODEL]: it hands [None] to the library's
    [transcribe] and goes by what comes back.  An exception that is an
    instance of [Exception] (Whisper raises the [AttributeError] of
    reading [model.device]) is printed and the response with the empty
    transcript is returned; an exception of another class reaches the
    caller; and an answer, from a library that does not look at the
    model, is cleaned and returned like any other. *)
Theorem unset_model_is_soft :
  (forall audio fp16 w,
      MODEL w = None ->
      Btfm.transcribe audio fp16 w
      = (Returns (PyStr (py "")),
         printed (py "Programmer error, you must load the model first with 'load_model()'") w))
  /\
  (forall audio w,
      MODEL w = None ->
      WhisperServer.transcribe audio w
      = let w1 := called (CallTranscribe None audio None false) w in
        match whisper_transcribe None audio None false with
        | Raises e =>
            if isinstance_Exception e
            then (Returns EMPTY_RESPONSE_JSON, printed (exc_str e) w1)
            else (Raises e, w1)
        | Returns result =>
            match lowered_text result with
            | Returns lowered =>
                (Returns (response_json (WhisperServer.clean_lowered lowered)), w1)
            | Raises e => (Returns EMPTY_RESPONSE_JSON, printed (exc_str e) w1)
            end
        end).
Proof.
  split.
  - intros audio fp16 w HM. run. rewrite HM. reflexivity.
  - intros audio w HM. unfold lowered_text, printed, called. run. rewrite HM.
    destruct (whisper_transcribe None audio None false) as [result|e];
      cbn [fst snd MODEL stdout calls].
    + destruct (getitem result (py "text")) as [v|e] eqn:Ev;
        cbn [fst snd MODEL stdout calls].
      * destruct (method_lower v) as [l|e] eqn:El; cbn [fst snd MODEL stdout calls].
        -- rewrite assign_transcript_literal. cbn [fst snd].
           rewrite dumps_response_with. reflexivity.
        -- rewrite (method_lower_raises_Exception _ _ El). reflexivity.
      * rewrite (getitem_raises_Exception _ _ _ Ev). reflexivity.
    + destruct (isinstance_Exception e); reflexivity.
Qed.

(** What [transcribe] of module 2 comes to when the library raises. *)
Lemma server_transcribe_on_raise audio w e :
  whisper_transcribe (MODEL w) audio None false = Raises e ->
  fst (WhisperServer.transcribe audio w)
  = if isinstance_Exception e then Returns EMPTY_RESPONSE_JSON else Raises e.
Proof.
  intros Hr. run. rewrite Hr. destruct (isinstance_Exception e); reflexivity.
Qed.

(** What [transcribe_raw] comes to when one of its library calls raises. *)
Lemma transcribe_raw_on_raise audio w e :
  raw_library_raises audio (MODEL w) e ->
  fst (WhisperServer.transcribe_raw audio w)
  = if isinstance_Exception e then Returns EMPTY_RESPONSE_JSON else Raises e.
Proof.
  intros Hraw. run.
  destruct Hraw as [H1 | p H1 H2 | p sp m H1 H2 HM H3 | p sp m mel H1 H2 HM H3 H4
                   | p sp m mel o H1 H2 HM H3 H4 H5];
    rewrite ?H1; cbn [fst snd MODEL stdout calls];
    rewrite ?H2; cbn [fst snd MODEL stdout calls];
    rewrite ?HM; cbn [fst snd MODEL stdout calls];
    rewrite ?H3; cbn [fst snd MODEL stdout calls];
    rewrite ?H4; cbn [fst snd MODEL stdout calls];
    rewrite ?HM; cbn [fst snd MODEL stdout calls];
    rewrite ?H5; cbn [fst snd MODEL stdout calls];
    destruct (isinstance_Exception e); reflexivity.
Qed.

(** C1, as amended. In module 2, when the library's [transcribe], or
    any library call of [transcribe_raw], raises: for an exception that
    is an instance of [Exception] the function returns the serialised
    response whose transcript is the empty string; an exception of any
    other class passes the handler and is raised to the caller. *)
Theorem server_swallows_Exception audio w e :
  (whisper_transcribe (MODEL w) audio None false = Raises e ->
   fst (WhisperServer.transcribe audio w)
   = if isinstance_Exception e then Returns EMPTY_RESPONSE_JSON else Raises e)
  /\ (raw_library_raises audio (MODEL w) e ->
      fst (WhisperServer.transcribe_raw audio w)
      = if isinstance_Exception e then Returns EMPTY_RESPONSE_JSON else Raises e)
  /\ response_transcript EMPTY_RESPONSE_JSON = Some (py "").
Proof.
  split; [|split].
  - apply server_transcribe_on_raise.
  - apply transcribe_raw_on_raise.
  - reflexivity.
Qed.

(** Every call of a module 2 function returns a text that reads back as
    a response, or lets through an exception outside [Exception] that a
    library call raised. *)
Lemma server_response_or_propagated audio w :
  response_or_propagated
    (fun e => whisper_transcribe (MODEL w) audio None false = Raises e)
    (fst (WhisperServer.transcribe audio w))
  /\ response_or_propagated
       (raw_library_raises audio (MODEL w))
       (fst (WhisperServer.transcribe_raw audio w)).
Proof.
  assert (Hjson : forall t, exists s t',
             Returns (response_json t) = Returns s /\ Json.loads s = Some (response_with t')).
  { intros t. destruct (loads_response_json t) as (t' & H & _). eauto. }
  assert (Hempty : exists s t',
             Returns EMPTY_RESPONSE_JSON = Returns s /\ Json.loads s = Some (response_with t')).
  { exists EMPTY_RESPONSE_JSON, []. split; reflexivity. }
  split.
  - run. outcomes; try (left; apply Hjson); try (left; exact Hempty).
    right. eexists. repeat split; eauto.
  - run.
    destruct (whisper_pad_or_trim audio) as [p|e] eqn:H1; cbn [fst snd MODEL stdout calls].
    2:{ destruct (isinstance_Exception e) eqn:He; cbn [fst snd]; outcomes.
        - left; exact Hempty.
        - right. exists e. repeat split; auto. now apply pad_or_trim_raises. }
    destruct (whisper_log_mel_spectrogram p) as [sp|e] eqn:H2; cbn [fst snd MODEL stdout calls].
    2:{ destruct (isinstance_Exception e) eqn:He; cbn [fst snd]; outcomes.
        - left; exact Hempty.
        - right. exists e. repeat split; auto. eapply log_mel_spectrogram_raises; eauto. }
    destruct (MODEL w) as [m|] eqn:HM; cbn [fst snd MODEL stdout calls].
    2:{ cbn [isinstance_Exception exc_type]. outcomes. left; exact Hempty. }
    destruct (mel_to sp (model_device m)) as [mel|e] eqn:H3; cbn [fst snd MODEL stdout calls].
    2:{ destruct (isinstance_Exception e) eqn:He; cbn [fst snd]; outcomes.
        - left; exact Hempty.
        - right. exists e. repeat split; auto. eapply to_raises; eauto. }
    destruct (whisper_DecodingOptions false) as [o|e] eqn:H4; cbn [fst snd MODEL stdout calls].
    2:{ destruct (isinstance_Exception e) eqn:He; cbn [fst snd]; outcomes.
        - left; exact Hempty.
        - right. exists e. repeat split; auto. eapply DecodingOptions_raises; eauto. }
    destruct (whisper_decode (Some m) mel o) as [r|e] eqn:H5; cbn [fst snd MODEL stdout calls].
    2:{ destruct (isinstance_Exception e) eqn:He; cbn [fst snd]; outcomes.
        - left; exact Hempty.
        - right. exists e. repeat split; auto. eapply decode_raises; eauto. }
    outcomes; try (left; apply Hjson); try (left; exact Hempty).
Qed.

(** C4, as amended. In module 2, when a library call raises an
    exception outside [Exception], [transcribe] and [transcribe_raw]
    raise it and return nothing; in every other case they return a text
    that [json.loads] reads as an object with the one key [channel],
    holding an object with the one key [alternatives], holding a list of
    one object with the one key [transcript], holding a string. *)
Theorem server_response_is_valid_json audio w :
  (forall e,
      whisper_transcribe (MODEL w) audio None false = Raises e ->
      isinstance_Exception e = false ->
      fst (WhisperServer.transcribe audio w) = Raises e)
  /\ ((forall e,
         whisper_transcribe (MODEL w) audio None false = Raises e ->
         isinstance_Exception e = true) ->
      exists s t,
        fst (WhisperServer.transcribe audio w) = Returns s
        /\ Json.loads s = Some (response_with t))
  /\ (forall e,
        raw_library_raises audio (MODEL w) e ->
        isinstance_Exception e = false ->
        fst (WhisperServer.transcribe_raw audio w) = Raises e)
  /\ ((forall e,
         raw_library_raises audio (MODEL w) e ->
         isinstance_Exception e = true) ->
      exists s t,
        fst (WhisperServer.transcribe_raw audio w) = Returns s
        /\ Json.loads s = Some (response_with t)).
Proof.
  destruct (server_response_or_propagated audio w) as [Ht Hraw].
  split; [|split; [|split]].
  - intros e Hr He. rewrite (server_transcribe_on_raise _ _ _ Hr), He. reflexivity.
  - intros Hsafe. destruct Ht as [Hjson | (e & _ & He & Hr)]; [exact Hjson|].
    rewrite (Hsafe e Hr) in He. discriminate He.
  - intros e Hr He. rewrite (transcribe_raw_on_raise _ _ _ Hr), He. reflexivity.
  - intros Hsafe. destruct Hraw as [Hjson | (e & _ & He & Hr)]; [exact Hjson|].
    rewrite (Hsafe e Hr) in He. discriminate He.
Qed.

(** C5. The cleaning step of module 2 gives the text lower-cased, then
    without the characters outside the Unicode word and white-space
    classes, then without leading and trailing white space; on ASCII
    text the characters kept are those of [[A-Za-z0-9_\s]]; and
    ["Hello, World! 123"] becomes ["hello world 123"]. *)
Theorem clean_text_meets_spec :
  (forall s, WhisperServer.clean_text s = clean_spec s)
  /\ (forall s, Forall (fun c => c < 128) s -> WhisperServer.clean_text s = clean_ascii_spec s)
  /\ WhisperServer.clean_text (py "Hello, World! 123") = py "hello world 123".
Proof.
  assert (Hascii : forall s, Forall (fun c => c < 128) s ->
                             WhisperServer.clean_text s = clean_ascii_spec s).
  { intros s Hs. rewrite clean_text_is_clean_spec. now apply clean_spec_ascii. }
  split; [|split].
  - apply clean_text_is_clean_spec.
  - exact Hascii.
  - rewrite Hascii; [reflexivity|]. repeat constructor.
Qed.

(** C6. Cleaning a cleaned text changes nothing, given that the case
    tables map every code point to code points that are their own lower
    case. *)
Theorem clean_text_idempotent `{!LowerStable U} s :
  WhisperServer.clean_text (WhisperServer.clean_text s) = WhisperServer.clean_text s.
Proof. rewrite !clean_text_is_clean_spec. apply clean_spec_idempotent. Qed.

Lemma btfm_load_model_success path w0 w :
  Btfm.load_model path w0 = (Returns tt, w) -> exists m, MODEL w = Some m.
Proof.
  run. destruct (whisper_load_model path false) as [m|e]; intros [= <-]. now exists m.
Qed.

(** C8, as amended. After a successful [load_model]: when the library
    answers with a non-empty text, [transcribe] of module 1 returns that
    text; when the lower-cased text holds a word character, the response
    of module 2 reads back with a non-empty transcript. *)
Theorem transcribe_after_load_is_nonempty path audio :
  (forall fp16 w0 w result text,
      Btfm.load_model path w0 = (Returns tt, w) ->
      whisper_transcribe (MODEL w) audio None fp16 = Returns result ->
      getitem result (py "text") = Returns (PyStr text) ->
      text <> [] ->
      exists t, fst (Btfm.transcribe audio fp16 w) = Returns (PyStr t) /\ t <> [])
  /\
  (forall w0 w result text c,
      WhisperServer.load_model path w0 = (Returns tt, w) ->
      whisper_transcribe (MODEL w) audio None false = Returns result ->
      getitem result (py "text") = Returns (PyStr text) ->
      In c (str_lower text) -> is_word c = true -> is_space c = false ->
      exists s t,
        fst (WhisperServer.transcribe audio w) = Returns s
        /\ response_transcript s = Some t /\ t <> []).
Proof.
  split.
  - intros fp16 w0 w result text Hload Hr Ht Hne.
    destruct (btfm_load_model_success _ _ _ Hload) as (m & HM).
    exists text. split; [|exact Hne].
    rewrite HM in Hr. run. rewrite HM. cbn [fst snd MODEL stdout calls].
    rewrite Hr, Ht. reflexivity.
  - intros w0 w result text c _ Hr Ht Hin Hw Hs.
    assert (Hclean : WhisperServer.clean_lowered (str_lower text) <> []).
    { change (WhisperServer.clean_text text <> []). rewrite clean_text_is_clean_spec.
      unfold clean_spec. apply (trim_nonempty is_space _ c); [|exact Hs].
      apply filter_In. split; [exact Hin|]. now rewrite Hw. }
    destruct (response_transcript_json (WhisperServer.clean_lowered (str_lower text)))
      as (t & Hparse & Hne).
    exists (response_json (WhisperServer.clean_lowered (str_lower text))), t.
    repeat split; [|exact Hparse|now apply Hne].
    run. rewrite Hr, Ht. cbn [method_lower fst snd]. outcomes. reflexivity.
Qed.
End Claims.

(* ================================================================== *)
(** ** The statements at concrete inputs *)

(** The ASCII-only table meets the requirement on the case tables. *)
Lemma ascii_only_lower_stable : LowerStable ascii_only_data.
Proof.
  constructor.
  - intros c d Hc Hs [<- | []]. split; [exact Hs|].
    unfold _PyUnicode_ToLowerFull. destruct (N.ltb_spec c 128); [lia | reflexivity].
  - reflexivity.
  - reflexivity.
Qed.

(** Under C1: interrupted from the keyboard inside the library,
    [transcribe] and [transcribe_raw] of module 2 raise
    [KeyboardInterrupt] instead of returning the empty response. *)
Lemma server_propagates_KeyboardInterrupt :
  @whisper_transcribe interrupted (Some tt) sample None false = Raises interrupt
  /\ @whisper_pad_or_trim interrupted sample = Raises interrupt
  /\ fst (@WhisperServer.transcribe ascii_only_data interrupted sample
            (world_with interrupted (Some tt))) = Raises interrupt
  /\ fst (@WhisperServer.transcribe_raw ascii_only_data interrupted sample
            (world_with interrupted (Some tt))) = Raises interrupt
  /\ fst (@WhisperServer.transcribe ascii_only_data interrupted sample
            (world_with interrupted (Some tt))) <> Returns EMPTY_RESPONSE_JSON.
Proof. repeat split; try reflexivity. discriminate. Qed.

(** C1 at work: out of memory inside the library, both functions of
    module 2 return the empty response. *)
Lemma server_swallows_Exception_witness :
  isinstance_Exception boom = true
  /\ @whisper_transcribe failing (Some tt) sample None false = Raises boom
  /\ @raw_library_raises failing sample (Some tt) boom
  /\ fst (@WhisperServer.transcribe ascii_only_data failing sample
            (world_with failing (Some tt))) = Returns EMPTY_RESPONSE_JSON
  /\ fst (@WhisperServer.transcribe_raw ascii_only_data failing sample
            (world_with failing (Some tt))) = Returns EMPTY_RESPONSE_JSON.
Proof.
  assert (Hraw : @raw_library_raises failing sample (Some tt) boom)
    by (apply pad_or_trim_raises; reflexivity).
  destruct (@server_swallows_Exception ascii_only_data failing sample
              (world_with failing (Some tt)) boom) as (H1 & H2 & _).
  split; [reflexivity|]. split; [reflexivity|]. split; [exact Hraw|].
  split; [exact (H1 eq_refl) | exact (H2 Hraw)].
Defined.

(** Under C3: interrupted from the keyboard inside the library,
    [transcribe] of module 1 raises [KeyboardInterrupt] instead of
    returning the empty string. *)
Lemma btfm_propagates_KeyboardInterrupt :
  MODEL (world_with interrupted (Some tt)) = Some tt
  /\ @whisper_transcribe interrupted (Some tt) sample None false = Raises interrupt
  /\ fst (@Btfm.transcribe ascii_only_data interrupted sample false
            (world_with interrupted (Some tt)))
     = Raises interrupt
  /\ fst (@Btfm.transcribe ascii_only_data interrupted sample false
            (world_with interrupted (Some tt)))
     <> Returns (PyStr (py "")).
Proof. repeat split; try reflexivity. discriminate. Qed.

(** C3 at work: out of memory inside the library, [transcribe] of module 1
    prints the error and returns the empty string after one call. *)
Lemma btfm_transcribe_swallows_Exception_witness :
  MODEL (world_with failing (Some tt)) = Some tt
  /\ @whisper_transcribe failing (Some tt) sample None true = Raises boom
  /\ @Btfm.transcribe ascii_only_data failing sample true (world_with failing (Some tt))
     = (Returns (PyStr (py "")),
        @printed failing (py "CUDA out of memory")
          (called (@CallTranscribe failing (Some tt) sample None true)
                  (world_with failing (Some tt)))).
Proof.
  split; [reflexivity|]. split; [reflexivity|].
  exact (@btfm_transcribe_swallows_Exception ascii_only_data failing sample true
           (world_with failing (Some tt)) tt boom eq_refl eq_refl).
Defined.

(** Under C4: interrupted from the keyboard inside the library, neither
    function of module 2 returns a text at all, let alone a JSON text. *)
Lemma server_returns_no_json_when_interrupted :
  ~ (exists s, fst (@WhisperServer.transcribe ascii_only_data interrupted sample
                      (world_with interrupted (Some tt))) = Returns s)
  /\ ~ (exists s, fst (@WhisperServer.transcribe_raw ascii_only_data interrupted sample
                         (world_with interrupted (Some tt))) = Returns s).
Proof. split; intros [s Hs]; discriminate Hs. Qed.

(** C4 at work: out of memory inside the library, what both functions
    of module 2 return reads back as a response. *)
Lemma server_response_is_valid_json_witness :
  (exists s t,
      fst (@WhisperServer.transcribe ascii_only_data failing sample
             (world_with failing (Some tt))) = Returns s
      /\ Json.loads s = Some (response_with t))
  /\ (exists s t,
        fst (@WhisperServer.transcribe_raw ascii_only_data failing sample
               (world_with failing (Some tt))) = Returns s
        /\ Json.loads s = Some (response_with t)).
Proof.
  destruct (@server_response_is_valid_json ascii_only_data failing sample
              (world_with failing (Some tt))) as (_ & Ht & _ & Hraw).
  split.
  - apply Ht. intros e He. injection He as <-. reflexivity.
  - apply Hraw. intros e He.
    destruct He as [H1 | p H1 H2 | p sp m H1 H2 HM H3 | p sp m mel H1 H2 HM H3 H4
                   | p sp m mel o H1 H2 HM H3 H4 H5];
      try discriminate H1. injection H1 as <-. reflexivity.
Defined.

(** Under C2: with [MODEL] unset and a library that does not look at the
    model, [transcribe] of module 2 runs the inference, prints nothing
    and returns the transcript [hi], not the empty one. *)
Lemma server_unset_model_runs_inference :
  MODEL (world_with careless None) = None
  /\ @WhisperServer.transcribe ascii_only_data careless sample (world_with careless None)
     = (Returns (@response_json ascii_only_data (py "hi")),
        called (@CallTranscribe careless None sample None false)
               (world_with careless None))
  /\ stdout (snd (@WhisperServer.transcribe ascii_only_data careless sample
                    (world_with careless None))) = []
  /\ response_transcript (@response_json ascii_only_data (py "hi")) = Some (py "hi")
  /\ fst (@WhisperServer.transcribe ascii_only_data careless sample
            (world_with careless None)) <> Returns EMPTY_RESPONSE_JSON.
Proof. repeat split; try reflexivity. discriminate. Qed.

(** C2 at work: no model loaded, and a library that fails on the missing
    model as Whisper does. *)
Lemma unset_model_is_soft_witness :
  @Btfm.transcribe ascii_only_data greeting sample false (world_with greeting None)
  = (Returns (PyStr (py "")),
     @printed greeting
       (py "Programmer error, you must load the model first with 'load_model()'")
       (world_with greeting None))
  /\ @WhisperServer.transcribe ascii_only_data greeting sample (world_with greeting None)
     = (Returns EMPTY_RESPONSE_JSON,
        @printed greeting (py "'NoneType' object has no attribute 'device'")
          (called (@CallTranscribe greeting None sample None false)
                  (world_with greeting None))).
Proof.
  destruct (@unset_model_is_soft ascii_only_data greeting) as [H1 H2]. split.
  - apply H1. reflexivity.
  - rewrite (H2 sample (world_with greeting None) eq_refl). reflexivity.
Defined.

(** C7 at work: the greeting comes back with its capitals and its
    punctuation. *)
Lemma btfm_transcribe_returns_raw_text_witness :
  @Btfm.transcribe ascii_only_data greeting sample false (world_with greeting (Some tt))
  = (Returns (PyStr (py "Hello, World! 123")),
     called (@CallTranscribe greeting (Some tt) sample None false)
            (world_with greeting (Some tt))).
Proof.
  apply (@btfm_transcribe_returns_raw_text ascii_only_data greeting sample false
           (world_with greeting (Some tt)) tt (result_dict "Hello, World! 123"));
    reflexivity.
Defined.

(** C5 at work, on the ASCII text of the example. *)
Lemma clean_text_meets_spec_witness :
  Forall (fun c => c < 128) (py "Hello, World! 123")
  /\ @WhisperServer.clean_text ascii_only_data (py "Hello, World! 123")
     = clean_ascii_spec (py "Hello, World! 123").
Proof.
  assert (H : Forall (fun c => c < 128) (py "Hello, World! 123")) by (repeat constructor).
  split; [exact H|].
  apply (proj1 (proj2 (@clean_text_meets_spec ascii_only_data))). exact H.
Defined.

(** C6 at work, with the ASCII-only table. *)
Lemma clean_text_idempotent_witness :
  @WhisperServer.clean_text ascii_only_data
     (@WhisperServer.clean_text ascii_only_data (py "  Hello, World! 123 "))
  = @WhisperServer.clean_text ascii_only_data (py "  Hello, World! 123 ").
Proof.
  apply (@clean_text_idempotent ascii_only_data ascii_only_lower_stable).
Defined.

(** Under C8: the library hears ["?!"], a non-empty text, and module 2
    answers with the empty transcript. *)
Lemma punctuation_gives_empty_transcript :
  @WhisperServer.load_model punctuation (py "base") (@WhisperServer.initial_world punctuation)
  = (Returns tt, @mkWorld punctuation (Some tt) [] [CallLoadModel (py "base") true])
  /\ @whisper_transcribe punctuation (Some tt) sample None false
     = Returns (result_dict "?!")
  /\ @getitem ascii_only_data (result_dict "?!") (py "text") = Returns (PyStr (py "?!"))
  /\ py "?!" <> []
  /\ fst (@WhisperServer.transcribe ascii_only_data punctuation sample
            (@mkWorld punctuation (Some tt) [] [CallLoadModel (py "base") true]))
     = Returns EMPTY_RESPONSE_JSON
  /\ response_transcript EMPTY_RESPONSE_JSON = Some [].
Proof. repeat split; try reflexivity. discriminate. Qed.

(** C8 at work: the greeting, after [load_model], in both modules. *)
Lemma transcribe_after_load_is_nonempty_witness :
  (exists t, fst (@Btfm.transcribe ascii_only_data greeting sample false
                    (@mkWorld greeting (Some tt) [] [CallLoadModel (py "base") false]))
             = Returns (PyStr t) /\ t <> [])
  /\ (exists s t, fst (@WhisperServer.transcribe ascii_only_data greeting sample
                         (@mkWorld greeting (Some tt) [] [CallLoadModel (py "base") true]))
                  = Returns s
                  /\ response_transcript s = Some t /\ t <> []).
Proof.
  destruct (@transcribe_after_load_is_nonempty ascii_only_data greeting (py "base") sample)
    as [H1 H2].
  split.
  - apply (H1 false (@Btfm.initial_world greeting) _ (result_dict "Hello, World! 123")
              (py "Hello, World! 123")); try reflexivity. discriminate.
  - apply (H2 (@WhisperServer.initial_world greeting) _ (result_dict "Hello, World! 123")
              (py "Hello, World! 123") 104); try reflexivity.
    left. reflexivity.
Defined.

(* ================================================================== *)
(** ** Beyond the claims: the response read back, and what it is made of *)

Section RoundTrip.
Context {U : UnicodeData}.
Import Json.

Lemma lor_shifted_low h l : l < 1024 -> N.lor (N.shiftl h 10) l = h * 1024 + l.
Proof.
  intros Hl.
  assert (Hland : N.land (N.shiftl h 10) l = 0).
  { apply N.bits_inj. intros m. rewrite N.land_spec, N.bits_0.
    destruct (N.lt_ge_cases m 10) as [Hm | Hm].
    - rewrite N.shiftl_spec_low by exact Hm. reflexivity.
    - rewrite <- (N.mod_small l (2 ^ 10)) by exact Hl.
      rewrite N.mod_pow2_bits_high by exact Hm. apply andb_false_r. }
  rewrite <- (N.lxor_lor _ _ Hland), <- (N.add_nocarry_lxor _ _ Hland).
  rewrite N.shiftl_mul_pow2. reflexivity.
Qed.

Lemma lor_high_base x : x < 1024 -> N.lor 55296 x = 55296 + x.
Proof.
  intros Hx. apply N.eqb_eq. revert x Hx.
  apply (forall_below (fun x => N.lor 55296 x =? 55296 + x) 1024).
  vm_compute. reflexivity.
Qed.

Lemma lor_low_base x : x < 1024 -> N.lor 56320 x = 56320 + x.
Proof.
  intros Hx. apply N.eqb_eq. revert x Hx.
  apply (forall_below (fun x => N.lor 56320 x =? 56320 + x) 1024).
  vm_compute. reflexivity.
Qed.

(** The two halves the encoder writes for a code point above the basic
    plane are put together again by the decoder. *)
Lemma surrogate_pair_combines c :
  65536 <= c -> c < 1114112 ->
  65536 + N.lor (N.shiftl (N.lor 55296 (N.land (N.shiftr (c - 65536) 10) 1023) - 55296) 10)
                (N.lor 56320 (N.land (c - 65536) 1023) - 56320) = c.
Proof.
  intros Hlo Hhi.
  change 1023 with (N.ones 10). rewrite !N.land_ones, N.shiftr_div_pow2.
  change (2 ^ 10) with 1024.
  assert (H1 : ((c - 65536) / 1024) mod 1024 < 1024) by (apply N.mod_lt; discriminate).
  assert (H2 : (c - 65536) mod 1024 < 1024) by (apply N.mod_lt; discriminate).
  rewrite (lor_high_base _ H1), (lor_low_base _ H2).
  rewrite !N.add_comm with (n := 55296), N.add_sub.
  rewrite N.add_comm with (n := 56320), N.add_sub.
  rewrite (lor_shifted_low _ _ H2).
  zify. Z.to_euclidean_division_equations. lia.
Qed.

(** One scalar value is written and read back as itself. *)
Lemma scan_scalar c t rest acc :
  is_scalar_value c = true ->
  scanstring (Re.sub ESCAPE_ASCII replace (c :: t) ++ 34 :: rest) acc
  = scanstring (Re.sub ESCAPE_ASCII replace t ++ 34 :: rest) (c :: acc).
Proof.
  intros Hc. rewrite sub_cons, <- app_assoc.
  generalize (Re.sub ESCAPE_ASCII replace t ++ 34 :: rest). intros X.
  unfold escape_char, ESCAPE_ASCII, replace, ESCAPE_DCT.
  cbn [Re.match_char existsb Re.item_match]. unfold in_range.
  unfold is_scalar_value in Hc.
  assert (Hnh : 32 <= c -> c < 65536 -> is_high_surrogate c = false).
  { intros _ _. unfold is_high_surrogate, in_range. revert Hc. nbool; intros; try discriminate; reflexivity. }
  assert (Hctl : c < 32 -> is_high_surrogate c = false).
  { intros H. unfold is_high_surrogate, in_range. nbool. }
  nbool; subst; norm;
    try (apply scan_backslash; [reflexivity | lia]);
    try (apply scan_plain; lia);
    try (apply scan_u_alone; [lia | auto]).
  assert (Hlt : c < 1114112) by (revert Hc; nbool; intros; try discriminate; lia).
  rewrite scan_u_then_u.
  - rewrite high_half, low_half by apply land_1023. cbn [andb].
    rewrite surrogate_pair_combines by assumption. reflexivity.
  - apply high_lt, high_half, land_1023.
  - apply low_lt, low_half, land_1023.
Qed.

Lemma scanstring_scalars t :
  forallb is_scalar_value t = true ->
  forall rest acc,
    scanstring (Re.sub ESCAPE_ASCII replace t ++ 34 :: rest) acc = Some (rev acc ++ t, rest).
Proof.
  induction t as [|c t IH]; intros Ht rest acc.
  - cbn [Re.sub app]. rewrite app_nil_r. apply scan_quote.
  - cbn [forallb] in Ht. apply andb_prop in Ht as [Hc Ht].
    rewrite (scan_scalar c t rest acc Hc), (IH Ht). cbn [rev].
    rewrite <- app_assoc. reflexivity.
Qed.

Lemma response_transcript_exact t :
  forallb is_scalar_value t = true ->
  Json.loads (response_json t) = Some (response_with t)
  /\ response_transcript (response_json t) = Some t.
Proof.
  intros Ht.
  assert (H : Json.loads (response_json t) = Some (response_with t)).
  { rewrite response_json_eq. apply loads_skeleton.
    rewrite (scanstring_scalars t Ht). reflexivity. }
  split; [exact H|]. unfold response_transcript. rewrite H. reflexivity.
Qed.

(** *** Only printable ASCII leaves the encoder *)

Lemma hexdigit_printable d : d < 16 -> is_printable_ascii (hexdigit d) = true.
Proof.
  intros Hd. unfold is_printable_ascii, hexdigit, in_range.
  destruct (N.ltb_spec d 10); nbool; reflexivity.
Qed.

Lemma format_04x_printable n : forallb is_printable_ascii (format_04x n) = true.
Proof.
  unfold format_04x. cbn [forallb].
  rewrite !hexdigit_printable by (apply N.mod_lt; discriminate). reflexivity.
Qed.

Lemma escape_char_printable c : forallb is_printable_ascii (escape_char c) = true.
Proof.
  unfold escape_char, ESCAPE_ASCII, replace, ESCAPE_DCT.
  cbn [Re.match_char existsb Re.item_match]. unfold in_range.
  nbool; subst; cbn [forallb app]; rewrite ?forallb_app; cbn [forallb];
    rewrite ?format_04x_printable; try reflexivity.
  all: unfold is_printable_ascii, in_range; nbool; reflexivity.
Qed.

Lemma sub_escape_printable t :
  forallb is_printable_ascii (Re.sub ESCAPE_ASCII replace t) = true.
Proof.
  induction t as [|c t IH]; [reflexivity|].
  rewrite sub_cons, forallb_app, escape_char_printable, IH. reflexivity.
Qed.

Lemma response_json_printable t : forallb is_printable_ascii (response_json t) = true.
Proof.
  rewrite response_json_eq, forallb_app. cbn [forallb].
  rewrite forallb_app, sub_escape_printable. reflexivity.
Qed.

End RoundTrip.

(* ================================================================== *)
(** ** Beyond the claims: what a cleaned transcript looks like *)

Section TranscriptFacts.
Context {U : UnicodeData}.

Lemma trim_head p s :
  trim p s = [] \/ exists c y, trim p s = c :: y /\ p c = false.
Proof.
  destruct (drop_leading_head p s) as [E | (c & y & E & Hc)].
  - left. unfold trim. rewrite E. reflexivity.
  - right. exists c, (rev (drop_leading p (rev y))). split; [|exact Hc].
    now apply trim_cons.
Qed.

Lemma trim_last p s front c : trim p s = front ++ [c] -> p c = false.
Proof.
  unfold trim. intros H.
  destruct (drop_leading_head p (rev (drop_leading p s))) as [E | (x & y & E & Hx)];
    rewrite E in H; cbn [rev] in H.
  - destruct front; discriminate H.
  - apply app_inj_tail in H as [_ <-]. exact Hx.
Qed.

Lemma forallb_false_witness (p : N -> bool) s :
  forallb p s = false -> exists c, In c s /\ p c = false.
Proof.
  induction s as [|x s IH]; cbn [forallb]; [discriminate|].
  destruct (p x) eqn:Hx; cbn [andb].
  - intros H. destruct (IH H) as (c & Hin & Hc). exists c. split; [now right | exact Hc].
  - intros _. exists x. split; [now left | exact Hx].
Qed.

Lemma drop_leading_all p s : forallb p s = true -> drop_leading p s = [].
Proof.
  induction s as [|x s IH]; [reflexivity|]. cbn [forallb drop_leading].
  intros H. apply andb_prop in H as [Hx Hs]. rewrite Hx. now apply IH.
Qed.

Lemma trim_empty_iff p s : trim p s = [] <-> forallb p s = true.
Proof.
  split.
  - intros H. destruct (forallb p s) eqn:E; [reflexivity|].
    destruct (forallb_false_witness p s E) as (c & Hin & Hc).
    exfalso. exact (trim_nonempty p s c Hin Hc H).
  - intros H. unfold trim. rewrite (drop_leading_all p s H). reflexivity.
Qed.

Lemma filter_drop_leading p s :
  filter (fun c => negb (p c)) (drop_leading p s) = filter (fun c => negb (p c)) s.
Proof.
  induction s as [|x s IH]; [reflexivity|]. cbn [drop_leading].
  destruct (p x) eqn:Hx; [|reflexivity]. cbn [filter]. rewrite Hx. exact IH.
Qed.

Lemma filter_trim p s :
  filter (fun c => negb (p c)) (trim p s) = filter (fun c => negb (p c)) s.
Proof.
  unfold trim. rewrite filter_rev, filter_drop_leading, filter_rev, rev_involutive.
  apply filter_drop_leading.
Qed.

Lemma filter_twice (f g : N -> bool) s :
  filter g (filter f s) = filter (fun c => f c && g c) s.
Proof.
  induction s as [|x s IH]; [reflexivity|]. cbn [filter].
  destruct (f x); cbn [andb filter]; [destruct (g x)|]; now rewrite IH.
Qed.

Lemma lower_fixed_not_upper d : lower_fixed d -> ascii_isupper d = false.
Proof.
  intros [_ H]. destruct (ascii_isupper d) eqn:E; [|reflexivity]. exfalso.
  unfold _PyUnicode_ToLowerFull in H. rewrite E in H.
  unfold ascii_isupper, in_range in E.
  destruct (N.ltb_spec d 128).
  - injection H as H. lia.
  - revert E. nbool; discriminate.
Qed.

(** X1. Every character of a cleaned text is a word character or white
    space, and neither its first nor its last character is white space. *)
Theorem clean_text_shape s :
  forallb (fun c => is_word c || is_space c) (WhisperServer.clean_text s) = true
  /\ (forall c rest, WhisperServer.clean_text s = c :: rest -> is_space c = false)
  /\ (forall front c, WhisperServer.clean_text s = front ++ [c] -> is_space c = false).
Proof.
  rewrite clean_text_is_clean_spec. unfold clean_spec. split; [|split].
  - apply forallb_forall. apply Forall_forall. apply trim_Forall, filter_Forall_true.
  - intros c rest H.
    destruct (trim_head is_space (filter (fun c => is_word c || is_space c) (str_lower s)))
      as [E | (x & y & E & Hx)]; rewrite E in H; [discriminate|].
    now injection H as <- _.
  - intros front c H. exact (trim_last _ _ _ _ H).
Qed.

(** X2. Given case tables that send every code point to its own lower
    case or to code points that are, a cleaned text is in lower case:
    lower-casing it again changes nothing and it holds no ASCII capital. *)
Theorem clean_text_is_lower_case `{!LowerStable U} s :
  str_lower (WhisperServer.clean_text s) = WhisperServer.clean_text s
  /\ forallb (fun c => negb (ascii_isupper c)) (WhisperServer.clean_text s) = true.
Proof.
  assert (Hfix : Forall lower_fixed (WhisperServer.clean_text s)).
  { rewrite clean_text_is_clean_spec. unfold clean_spec. apply trim_Forall.
    apply Forall_forall. intros c Hc. apply filter_In in Hc as [Hc _].
    revert c Hc. apply Forall_forall. apply do_lower_fixed_out. }
  split.
  - unfold str_lower. now apply do_lower_of_fixed.
  - apply forallb_forall. intros c Hc. rewrite Forall_forall in Hfix.
    now rewrite (lower_fixed_not_upper c (Hfix c Hc)).
Qed.

(** X3. The cleaned text is empty exactly when the lower-cased text has
    no word character other than white space. *)
Theorem clean_text_empty_iff s :
  WhisperServer.clean_text s = []
  <-> (forall c, In c (str_lower s) -> is_word c = true -> is_space c = true).
Proof.
  rewrite clean_text_is_clean_spec. unfold clean_spec. rewrite trim_empty_iff.
  rewrite forallb_forall. split.
  - intros H c Hin Hw. apply H. apply filter_In. split; [exact Hin|]. now rewrite Hw.
  - intros H c Hc. apply filter_In in Hc as [Hin Hk].
    destruct (is_space c) eqn:Hs; [reflexivity|].
    rewrite orb_false_r in Hk. rewrite (H c Hin Hk) in Hs. discriminate.
Qed.

(** X4. Cleaning loses no word character and keeps their order: the
    cleaned text without its white space is the lower-cased text
    restricted to its word characters. *)
Theorem clean_text_keeps_words s :
  filter (fun c => negb (is_space c)) (WhisperServer.clean_text s)
  = filter (fun c => is_word c && negb (is_space c)) (str_lower s).
Proof.
  rewrite clean_text_is_clean_spec. unfold clean_spec.
  rewrite (filter_trim is_space), filter_twice.
  apply filter_ext. intros c. destruct (is_word c), (is_space c); reflexivity.
Qed.

End TranscriptFacts.

(* ================================================================== *)
(** ** Beyond the claims: the paths through the three functions *)

Section PathFacts.
Context {U : UnicodeData} {W : WhisperLib}.

Lemma lowered_text_raises_Exception result e :
  lowered_text result = Raises e -> isinstance_Exception e = true.
Proof.
  unfold lowered_text. destruct (getitem result (py "text")) as [v|e'] eqn:E.
  - apply method_lower_raises_Exception.
  - intros [= <-]. exact (getitem_raises_Exception _ _ _ E).
Qed.

(** The tail of both [try] blocks of module 2, behind the library's
    answer: the response is filled in, or the error of reading the text
    comes out. *)
Lemma fill_response result w :
  bind (lift (getitem result (py "text")))
    (fun text =>
       bind (lift (method_lower text))
         (fun lowered =>
            WhisperServer.assign_transcript WhisperServer.response_literal
              (WhisperServer.clean_lowered lowered))) w
  = match lowered_text result with
    | Returns lowered => (Returns (response_with (WhisperServer.clean_lowered lowered)), w)
    | Raises e => (Raises e, w)
    end.
Proof.
  unfold bind, lift, lowered_text.
  destruct (getitem result (py "text")) as [v|e]; [|reflexivity].
  destruct (method_lower v); reflexivity.
Qed.

(** X5. In module 1, when the library's answer has no usable [text]
    entry (the key is missing, or the answer is not a dict), [transcribe]
    prints the error of the subscript, worded as CPython words it, and
    returns the empty string. *)
Theorem btfm_transcribe_unusable_result audio fp16 w m result e :
  MODEL w = Some m ->
  whisper_transcribe (Some m) audio None fp16 = Returns result ->
  getitem result (py "text") = Raises e ->
  Btfm.transcribe audio fp16 w
  = (Returns (PyStr (py "")),
     printed (exc_str e) (called (CallTranscribe (Some m) audio None fp16) w)).
Proof.
  intros HM Hr Ht. run. rewrite HM. cbn [fst snd MODEL stdout calls].
  rewrite Hr, Ht, (getitem_raises_Exception _ _ _ Ht). reflexivity.
Qed.

(** X6. In module 2, when the library answers with a dict whose [text]
    is a string, [transcribe] returns the serialised response holding the
    cleaned text and prints nothing; when the cleaned text holds no
    surrogate code point, [json.loads] reads that very text back out of
    the response. *)
Theorem server_transcribe_success audio w result text :
  whisper_transcribe (MODEL w) audio None false = Returns result ->
  getitem result (py "text") = Returns (PyStr text) ->
  WhisperServer.transcribe audio w
  = (Returns (response_json (WhisperServer.clean_text text)),
     called (CallTranscribe (MODEL w) audio None false) w)
  /\ (forallb is_scalar_value (WhisperServer.clean_text text) = true ->
      response_transcript (response_json (WhisperServer.clean_text text))
      = Some (WhisperServer.clean_text text)).
Proof.
  intros Hr Ht. split.
  - run. rewrite Hr, Ht. cbn [method_lower fst snd]. outcomes. reflexivity.
  - intros Hs. now apply response_transcript_exact.
Qed.

(** X7. In module 2, when the library answers but [result['text'].lower()]
    fails (no [text] entry, an answer that is not a dict, a text that is
    not a string), [transcribe] prints that error and returns the
    response with the empty transcript. *)
Theorem server_transcribe_unusable_result audio w result e :
  whisper_transcribe (MODEL w) audio None false = Returns result ->
  lowered_text result = Raises e ->
  WhisperServer.transcribe audio w
  = (Returns EMPTY_RESPONSE_JSON,
     printed (exc_str e) (called (CallTranscribe (MODEL w) audio None false) w)).
Proof.
  intros Hr Hl. unfold WhisperServer.transcribe.
  unfold bind at 1. unfold try_except_Exception.
  unfold bind at 1. unfold get_MODEL. unfold bind at 1. unfold call at 1.
  rewrite Hr. rewrite fill_response, Hl, (lowered_text_raises_Exception _ _ Hl).
  reflexivity.
Qed.


(** [transcribe_raw] from the point where its library calls up to
    [DecodingOptions] have returned. *)
Lemma transcribe_raw_at_decode audio w padded spectrogram m mel options :
  whisper_pad_or_trim audio = Returns padded ->
  whisper_log_mel_spectrogram padded = Returns spectrogram ->
  MODEL w = Some m ->
  mel_to spectrogram (model_device m) = Returns mel ->
  whisper_DecodingOptions false = Returns options ->
  WhisperServer.transcribe_raw audio w
  = let w5 := called (CallDecode (Some m) mel options)
                (called (CallDecodingOptions false)
                   (called (CallTo spectrogram (model_device m))
                      (called (CallLogMelSpectrogram padded)
                         (called (CallPadOrTrim audio) w)))) in
    match whisper_decode (Some m) mel options with
    | Returns result =>
        match lowered_text result with
        | Returns lowered =>
            (Returns (response_json (WhisperServer.clean_lowered lowered)), w5)
        | Raises e => (Returns EMPTY_RESPONSE_JSON, printed (exc_str e) w5)
        end
    | Raises e =>
        if isinstance_Exception e
        then (Returns EMPTY_RESPONSE_JSON, printed (exc_str e) w5)
        else (Raises e, w5)
    end.
Proof.
  intros H1 H2 HM H3 H4. unfold lowered_text, printed, called. run.
  rewrite H1; cbn [fst snd MODEL stdout calls].
  rewrite H2; cbn [fst snd MODEL stdout calls].
  rewrite HM; cbn [fst snd MODEL stdout calls].
  rewrite H3; cbn [fst snd MODEL stdout calls].
  rewrite H4; cbn [fst snd MODEL stdout calls].
  destruct (whisper_decode (Some m) mel options) as [result|e];
    cbn [fst snd MODEL stdout calls].
  - destruct (getitem result (py "text")) as [v|e] eqn:Ev; cbn [fst snd MODEL stdout calls].
    + destruct (method_lower v) as [l|e] eqn:El; cbn [fst snd MODEL stdout calls].
      * rewrite assign_transcript_literal. cbn [fst snd]. rewrite dumps_response_with.
        rewrite <- !app_assoc. reflexivity.
      * rewrite (method_lower_raises_Exception _ _ El). cbn [fst snd MODEL stdout calls].
        rewrite <- !app_assoc. reflexivity.
    + rewrite (getitem_raises_Exception _ _ _ Ev). cbn [fst snd MODEL stdout calls].
      rewrite <- !app_assoc. reflexivity.
  - destruct (isinstance_Exception e); cbn [fst snd MODEL stdout calls];
      rewrite <- !app_assoc; reflexivity.
Qed.

(** X8. With [MODEL] unset, [transcribe_raw] still pads the audio and
    computes the spectrogram; reading [MODEL.device] then fails, the
    error is printed, the response with the empty transcript is returned,
    and neither [DecodingOptions] nor [decode] is called. *)
Theorem transcribe_raw_unset_model audio w padded spectrogram :
  MODEL w = None ->
  whisper_pad_or_trim audio = Returns padded ->
  whisper_log_mel_spectrogram padded = Returns spectrogram ->
  WhisperServer.transcribe_raw audio w
  = (Returns EMPTY_RESPONSE_JSON,
     printed (py "'NoneType' object has no attribute 'device'")
       (called (CallLogMelSpectrogram padded) (called (CallPadOrTrim audio) w))).
Proof.
  intros HM H1 H2. unfold printed, called. run.
  rewrite H1; cbn [fst snd MODEL stdout calls].
  rewrite H2; cbn [fst snd MODEL stdout calls].
  rewrite HM; cbn [fst snd MODEL stdout calls isinstance_Exception exc_type exc_str].
  rewrite <- !app_assoc. reflexivity.
Qed.

(** X9. When the five library calls of [transcribe_raw] return and the
    decoder's answer is a dict whose [text] is a string, the function
    returns the serialised response holding the cleaned text, after
    exactly those five calls in the order of the source and without
    printing; when the cleaned text holds no surrogate code point,
    [json.loads] reads that very text back out of the response. *)
Theorem transcribe_raw_success audio w padded spectrogram m mel options result text :
  whisper_pad_or_trim audio = Returns padded ->
  whisper_log_mel_spectrogram padded = Returns spectrogram ->
  MODEL w = Some m ->
  mel_to spectrogram (model_device m) = Returns mel ->
  whisper_DecodingOptions false = Returns options ->
  whisper_decode (Some m) mel options = Returns result ->
  getitem result (py "text") = Returns (PyStr text) ->
  WhisperServer.transcribe_raw audio w
  = (Returns (response_json (WhisperServer.clean_text text)),
     called (CallDecode (Some m) mel options)
       (called (CallDecodingOptions false)
          (called (CallTo spectrogram (model_device m))
             (called (CallLogMelSpectrogram padded)
                (called (CallPadOrTrim audio) w)))))
  /\ (forallb is_scalar_value (WhisperServer.clean_text text) = true ->
      response_transcript (response_json (WhisperServer.clean_text text))
      = Some (WhisperServer.clean_text text)).
Proof.
  intros H1 H2 HM H3 H4 H5 Ht. split.
  - rewrite (transcribe_raw_at_decode _ _ _ _ _ _ _ H1 H2 HM H3 H4). cbv zeta.
    rewrite H5. unfold lowered_text. rewrite Ht. reflexivity.
  - intros Hs. now apply response_transcript_exact.
Qed.

(** X10. When the five library calls of [transcribe_raw] return but the
    decoder's answer cannot be subscripted with [text] and lower-cased
    (an object without subscript such as a [DecodingResult], a missing
    key, a text that is not a string), the decoded text is lost: the
    error is printed and the response with the empty transcript is
    returned. *)
Theorem transcribe_raw_unusable_result audio w padded spectrogram m mel options result e :
  whisper_pad_or_trim audio = Returns padded ->
  whisper_log_mel_spectrogram padded = Returns spectrogram ->
  MODEL w = Some m ->
  mel_to spectrogram (model_device m) = Returns mel ->
  whisper_DecodingOptions false = Returns options ->
  whisper_decode (Some m) mel options = Returns result ->
  lowered_text result = Raises e ->
  WhisperServer.transcribe_raw audio w
  = (Returns EMPTY_RESPONSE_JSON,
     printed (exc_str e)
       (called (CallDecode (Some m) mel options)
          (called (CallDecodingOptions false)
             (called (CallTo spectrogram (model_device m))
                (called (CallLogMelSpectrogram padded)
                   (called (CallPadOrTrim audio) w)))))).
Proof.
  intros H1 H2 HM H3 H4 H5 Hl.
  rewrite (transcribe_raw_at_decode _ _ _ _ _ _ _ H1 H2 HM H3 H4). cbv zeta.
  rewrite H5, Hl. reflexivity.
Qed.

End PathFacts.

(** Case analysis along every path of the three functions. *)
Ltac paths :=
  repeat (match goal with
          | |- context [match MODEL ?w with Some _ => _ | None => _ end] =>
              destruct (MODEL w) eqn:?
          | |- context [isinstance_Exception (mkExc AttributeError ?s)] =>
              change (isinstance_Exception (mkExc AttributeError s)) with true
          | _ => progress outcomes
          end; cbn [fst snd MODEL stdout calls]).

Section EveryPath.
Context {U : UnicodeData} {W : WhisperLib}.

(** A call of a module 2 function returns the serialisation of some
    response, or raises. *)
Lemma server_outcome_shape audio w :
  ((exists t, fst (WhisperServer.transcribe audio w) = Returns (response_json t))
   \/ (exists e, fst (WhisperServer.transcribe audio w) = Raises e))
  /\ ((exists t, fst (WhisperServer.transcribe_raw audio w) = Returns (response_json t))
      \/ (exists e, fst (WhisperServer.transcribe_raw audio w) = Raises e)).
Proof.
  split; run; paths;
    first [ left; eexists; reflexivity
          | left; exists []; reflexivity
          | right; eexists; reflexivity ].
Qed.

(** X11. Whatever the library does, a text returned by [transcribe] or
    [transcribe_raw] of module 2 consists of printable ASCII characters
    only: everything else is escaped by the encoder. *)
Theorem server_output_is_printable_ascii audio w :
  match fst (WhisperServer.transcribe audio w) with
  | Returns s => forallb is_printable_ascii s = true
  | Raises _ => True
  end
  /\ match fst (WhisperServer.transcribe_raw audio w) with
     | Returns s => forallb is_printable_ascii s = true
     | Raises _ => True
     end.
Proof.
  destruct (server_outcome_shape audio w) as [H1 H2]. split.
  - destruct H1 as [(t & ->) | (e & ->)]; [apply response_json_printable | exact I].
  - destruct H2 as [(t & ->) | (e & ->)]; [apply response_json_printable | exact I].
Qed.

(** X12. Whatever the outcome, [transcribe] calls the library once and
    never again (module 1: not at all when [MODEL] is unset), and
    [transcribe] of module 2 calls [print] at most once; [transcribe_raw]
    starts with [pad_or_trim] and makes at most four further library
    calls. *)
Theorem transcribe_calls_library_once audio w :
  (forall fp16,
      calls (snd (Btfm.transcribe audio fp16 w))
      = match MODEL w with
        | Some m => calls w ++ [CallTranscribe (Some m) audio None fp16]
        | None => calls w
        end)
  /\ calls (snd (WhisperServer.transcribe audio w))
     = calls w ++ [CallTranscribe (MODEL w) audio None false]
  /\ (exists prints,
        stdout (snd (WhisperServer.transcribe audio w)) = stdout w ++ prints
        /\ (length prints <= 1)%nat)
  /\ (exists more,
        calls (snd (WhisperServer.transcribe_raw audio w))
        = calls w ++ CallPadOrTrim audio :: more
        /\ (length more <= 4)%nat).
Proof.
  split; [|split; [|split]].
  - intros fp16. run. destruct (MODEL w) eqn:HM; cbn [fst snd MODEL stdout calls];
      paths; reflexivity.
  - run. paths; reflexivity.
  - run. paths;
      first [ exists []; split; [now rewrite app_nil_r | cbn; lia]
            | eexists [_]; split; [reflexivity | cbn; lia] ].
  - run. paths; rewrite <- ?app_assoc; cbn [app];
      eexists; (split; [reflexivity | cbn; lia]).
Qed.

(** X13. [transcribe] works with the model of the latest [load_model]
    that succeeded: after a [load_model] that returns, the library is
    given the model just loaded; after one that raises, it is given the
    model that was there before (module 1 then calls nothing if there
    was none). *)
Theorem transcribe_uses_latest_loaded_model path audio w :
  (forall fp16,
      let current := match whisper_load_model path false with
                     | Returns m => Some m
                     | Raises _ => MODEL w
                     end in
      calls (snd (Btfm.transcribe audio fp16 (snd (Btfm.load_model path w))))
      = calls w ++ CallLoadModel path false ::
          match current with
          | Some _ => [CallTranscribe current audio None fp16]
          | None => []
          end)
  /\ (let current := match whisper_load_model path true with
                     | Returns m => Some m
                     | Raises _ => MODEL w
                     end in
      calls (snd (WhisperServer.transcribe audio (snd (WhisperServer.load_model path w))))
      = calls w ++ [CallLoadModel path true; CallTranscribe current audio None false]).
Proof.
  split.
  - intros fp16. cbv zeta. run.
    destruct (whisper_load_model path false) as [m|e]; cbn [fst snd MODEL stdout calls].
    + paths; rewrite <- ?app_assoc; reflexivity.
    + destruct (MODEL w) eqn:HM; cbn [fst snd MODEL stdout calls];
        paths; rewrite <- ?app_assoc; reflexivity.
  - cbv zeta. run.
    destruct (whisper_load_model path true) as [m|e]; cbn [fst snd MODEL stdout calls];
      paths; rewrite <- ?app_assoc; reflexivity.
Qed.

End EveryPath.

(* ================================================================== *)
(** ** Beyond the claims, at concrete inputs *)

(** The shape of a cleaned greeting: it starts with [h] and ends with [i]. *)
Lemma clean_text_shape_witness :
  @WhisperServer.clean_text ascii_only_data (py " Hi! ") = py "hi"
  /\ @is_space ascii_only_data 104 = false
  /\ @is_space ascii_only_data 105 = false.
Proof.
  destruct (@clean_text_shape ascii_only_data (py " Hi! ")) as (_ & Hfirst & Hlast).
  split; [reflexivity|]. split.
  - apply (Hfirst 104 [105]). reflexivity.
  - apply (Hlast [104] 105). reflexivity.
Defined.

(** With the ASCII-only table, a cleaned greeting is in lower case. *)
Lemma clean_text_is_lower_case_witness :
  @str_lower ascii_only_data (@WhisperServer.clean_text ascii_only_data (py "Hello, World!"))
  = @WhisperServer.clean_text ascii_only_data (py "Hello, World!")
  /\ forallb (fun c => negb (ascii_isupper c))
       (@WhisperServer.clean_text ascii_only_data (py "Hello, World!")) = true.
Proof.
  apply (@clean_text_is_lower_case ascii_only_data ascii_only_lower_stable).
Defined.

(** Punctuation alone cleans to nothing. *)
Lemma clean_text_empty_iff_witness :
  @WhisperServer.clean_text ascii_only_data (py "?!") = [].
Proof.
  apply (proj2 (@clean_text_empty_iff ascii_only_data (py "?!"))).
  intros c [<- | [<- | []]] Hw; vm_compute in Hw; discriminate Hw.
Defined.

(** A result without [text], in module 1: what is printed is the
    [KeyError], that is, the key between quotes. *)
Lemma btfm_transcribe_unusable_result_witness :
  @Btfm.transcribe ascii_only_data keyless sample false (world_with keyless (Some tt))
  = (Returns (PyStr (py "")),
     @printed keyless (py "'text'")
       (called (@CallTranscribe keyless (Some tt) sample None false)
               (world_with keyless (Some tt)))).
Proof.
  apply (@btfm_transcribe_unusable_result ascii_only_data keyless sample false
           (world_with keyless (Some tt)) tt
           (PyDict [(py "language", PyStr (py "en"))]) (mkExc KeyError (py "'text'")));
    reflexivity.
Defined.

(** The greeting through module 2, and read back. *)
Lemma server_transcribe_success_witness :
  fst (@WhisperServer.transcribe ascii_only_data greeting sample
         (world_with greeting (Some tt)))
  = Returns (@response_json ascii_only_data (py "hello world 123"))
  /\ response_transcript (@response_json ascii_only_data (py "hello world 123"))
     = Some (py "hello world 123").
Proof.
  destruct (@server_transcribe_success ascii_only_data greeting sample
              (world_with greeting (Some tt)) (result_dict "Hello, World! 123")
              (py "Hello, World! 123") eq_refl eq_refl) as [Hrun Hback].
  split.
  - rewrite Hrun. reflexivity.
  - apply Hback. reflexivity.
Defined.

(** An answer without subscript, in [transcribe] of module 2. *)
Lemma server_transcribe_unusable_result_witness :
  @WhisperServer.transcribe ascii_only_data opaque sample (world_with opaque (Some tt))
  = (Returns EMPTY_RESPONSE_JSON,
     @printed opaque (py "'DecodingResult' object is not subscriptable")
       (called (@CallTranscribe opaque (Some tt) sample None false)
               (world_with opaque (Some tt)))).
Proof.
  apply (@server_transcribe_unusable_result ascii_only_data opaque sample
           (world_with opaque (Some tt)) (PyOther (py "DecodingResult"))
           (mkExc TypeError (py "'DecodingResult' object is not subscriptable")));
    reflexivity.
Defined.

(** [transcribe_raw] before any [load_model]. *)
Lemma transcribe_raw_unset_model_witness :
  @WhisperServer.transcribe_raw ascii_only_data greeting sample (world_with greeting None)
  = (Returns EMPTY_RESPONSE_JSON,
     @printed greeting (py "'NoneType' object has no attribute 'device'")
       (called (@CallLogMelSpectrogram greeting sample)
          (called (@CallPadOrTrim greeting sample) (world_with greeting None)))).
Proof.
  apply (@transcribe_raw_unset_model ascii_only_data greeting sample
           (world_with greeting None) sample tt); reflexivity.
Defined.

(** The greeting through [transcribe_raw], and read back. *)
Lemma transcribe_raw_success_witness :
  fst (@WhisperServer.transcribe_raw ascii_only_data greeting sample
         (world_with greeting (Some tt)))
  = Returns (@response_json ascii_only_data (py "hello world 123"))
  /\ response_transcript (@response_json ascii_only_data (py "hello world 123"))
     = Some (py "hello world 123").
Proof.
  destruct (@transcribe_raw_success ascii_only_data greeting sample
              (world_with greeting (Some tt)) sample tt tt tt tt
              (result_dict "Hello, World! 123") (py "Hello, World! 123")
              eq_refl eq_refl eq_refl eq_refl eq_refl eq_refl eq_refl) as [Hrun Hback].
  split.
  - rewrite Hrun. reflexivity.
  - apply Hback. reflexivity.
Defined.

(** A decoder answering with an object without subscript. *)
Lemma transcribe_raw_unusable_result_witness :
  @WhisperServer.transcribe_raw ascii_only_data opaque sample (world_with opaque (Some tt))
  = (Returns EMPTY_RESPONSE_JSON,
     @printed opaque (py "'DecodingResult' object is not subscriptable")
       (called (@CallDecode opaque (Some tt) tt tt)
          (called (@CallDecodingOptions opaque false)
             (called (@CallTo opaque tt tt)
                (called (@CallLogMelSpectrogram opaque sample)
                   (called (@CallPadOrTrim opaque sample)
                           (world_with opaque (Some tt)))))))).
Proof.
  apply (@transcribe_raw_unusable_result ascii_only_data opaque sample
           (world_with opaque (Some tt)) sample tt tt tt tt
           (PyOther (py "DecodingResult"))
           (mkExc TypeError (py "'DecodingResult' object is not subscriptable")));
    reflexivity.
Defined.

(** A model loaded from [base.pt] stays in use when loading
    [missing.pt] fails afterwards. *)
Lemma transcribe_uses_latest_loaded_model_witness :
  calls (snd (@Btfm.transcribe ascii_only_data named sample false
                (snd (@Btfm.load_model named (py "missing.pt")
                        (world_with named (Some (py "base.pt")))))))
  = [@CallLoadModel named (py "missing.pt") false;
     @CallTranscribe named (Some (py "base.pt")) sample None false].
Proof.
  exact (proj1 (@transcribe_uses_latest_loaded_model ascii_only_data named (py "missing.pt") sample
                  (world_with named (Some (py "base.pt")))) false).
Defined.
